(** * Relay API client: the HTTP transport core and its error taxonomy

    A shallow embedding of [client/errors.ts], [client/http-client.ts],
    [utils/query-params.ts] and the constructor of [RelayClient]
    ([client.ts]), followed by the properties of the request pipeline.

    Conventions of the embedding.
    - JavaScript strings are modelled by their UTF-8 bytes ([string]).
    - A JavaScript number is modelled by the decimal digits and the
      exponent from which [Number::toString] prints it ([Number.t]); the
      status of a response and a timeout are integers ([Z]).
    - A JavaScript object used as a record of own enumerable properties is
      an association list in enumeration order, keys pairwise distinct;
      its prototype is [Object.prototype], and a value is one that JSON or
      an object literal of data can denote (no functions, no symbols).
    - A header record ([Record<string, string>]) is a finite map.
    - A function that may throw returns a [Completion]; asynchronous code
      is sequenced in the order in which it is awaited, and the calls made
      to the user's hooks and to the network are recorded in a trace.
    - A hook is a function of the values it is called with that completes
      normally or fails; it does not modify the objects it is handed.
    - The network is a parameter: it decides how the race between
      [fetch] and the timer settles. *)

From Stdlib Require Import ZArith NArith Ascii String.
From stdpp Require Import base tactics option list strings pretty gmap fin_maps.

Open Scope string_scope.
Set Warnings "-register-all".

(** ** JavaScript values *)

(** *** Numbers

    A finite number other than zero is given by the integers [s] and [n]
    of [Number::toString]: its absolute value is [s * 10^(n - k)], where
    [k] is the number of decimal digits of [s] and [s] is not divisible by
    ten. *)

Module Number.

Inductive t : Type :=
| NaN
| Infinity (negative : bool)
| Zero (negative : bool)
| Finite (negative : bool) (s : positive) (n : Z).

(** ToBoolean *)
Definition truthy (x : t) : bool :=
  match x with
  | NaN | Zero _ => false
  | Infinity _ | Finite _ _ _ => true
  end.

Fixpoint zeros (count : nat) : string :=
  match count with
  | O => EmptyString
  | S count' => String "0" (zeros count')
  end.

(** [Number::toString(x)] for radix ten. *)
Definition toString (x : t) : string :=
  match x with
  | NaN => "NaN"
  | Infinity false => "Infinity"
  | Infinity true => "-Infinity"
  | Zero _ => "0"
  | Finite negative s n =>
      let digits := pretty (Npos s) in
      let k := Z.of_nat (String.length digits) in
      let magnitude :=
        if (k <=? n)%Z && (n <=? 21)%Z then
          digits +:+ zeros (Z.to_nat (n - k))
        else if (0 <? n)%Z && (n <=? 21)%Z then
          String.substring 0 (Z.to_nat n) digits +:+ "."
          +:+ String.substring (Z.to_nat n) (Z.to_nat (k - n)) digits
        else if (-6 <? n)%Z && (n <=? 0)%Z then
          "0." +:+ zeros (Z.to_nat (- n)) +:+ digits
        else
          let e := (n - 1)%Z in
          let exponent := (if (0 <? e)%Z then "+" else "-") +:+ pretty (Z.abs e) in
          if (k =? 1)%Z then digits +:+ "e" +:+ exponent
          else
            String.substring 0 1 digits +:+ "."
            +:+ String.substring 1 (Z.to_nat (k - 1)) digits +:+ "e" +:+ exponent in
      if negative then "-" +:+ magnitude else magnitude
  end.

(** [p] without its trailing decimal zeros. *)
Fixpoint strip_zeros (fuel : nat) (p : positive) : positive :=
  match fuel with
  | O => p
  | S fuel' =>
      if (Zpos p mod 10 =? 0)%Z
      then match (Zpos p / 10)%Z with
           | Zpos q => strip_zeros fuel' q
           | _ => p
           end
      else p
  end.

(** The number whose value is the integer [z]. *)
Definition of_Z (z : Z) : t :=
  match z with
  | Z0 => Zero false
  | Zpos p =>
      Finite false (strip_zeros (Pos.size_nat p) p)
        (Z.of_nat (String.length (pretty (Npos p))))
  | Zneg p =>
      Finite true (strip_zeros (Pos.size_nat p) p)
        (Z.of_nat (String.length (pretty (Npos p))))
  end.

End Number.

Coercion Number.of_Z : Z >-> Number.t.

Module JS.

Inductive JValue : Type :=
| JUndefined
| JNull
| JBool (b : bool)
| JNum (x : Number.t)
| JStr (s : string)
| JArr (items : list JValue)
| JObj (props : list (string * JValue)).

Arguments JNum x%_Z.

(** [{}] *)
Definition emptyObject : JValue := JObj [].

(** ToBoolean: the test performed by [if (v)], [!v], [a || b]. *)
Definition truthy (v : JValue) : bool :=
  match v with
  | JUndefined | JNull => false
  | JBool b => b
  | JNum x => Number.truthy x
  | JStr s => negb (String.eqb s EmptyString)
  | JArr _ | JObj _ => true
  end.

(** [a || b] *)
Definition or_else (a b : JValue) : JValue := if truthy a then a else b.

Fixpoint join (sep : string) (parts : list string) : string :=
  match parts with
  | [] => EmptyString
  | [p] => p
  | p :: rest => p +:+ sep +:+ join sep rest
  end.

Fixpoint assoc (k : string) (props : list (string * JValue)) : JValue :=
  match props with
  | [] => JUndefined
  | (k', v) :: rest => if String.eqb k k' then v else assoc k rest
  end.

(** [Object.hasOwn(o, k)] for the object with the properties [props]. *)
Fixpoint hasOwn (k : string) (props : list (string * JValue)) : bool :=
  match props with
  | [] => false
  | (k', _) :: rest => String.eqb k k' || hasOwn k rest
  end.

(** [String(v)], which is also the conversion the [Error] constructor
    applies to its message; [None] when the conversion throws a
    [TypeError].  An object is printed by [Object.prototype.toString]
    unless it has an own property [toString]: that property is not a
    function, and since [valueOf] does not yield a primitive either, the
    conversion throws.  An array is printed by [Array.prototype.join],
    which prints [null] and [undefined] elements as the empty string and
    converts the other elements in turn. *)
Fixpoint ToString (v : JValue) : option string :=
  match v with
  | JUndefined => Some "undefined"
  | JNull => Some "null"
  | JBool true => Some "true"
  | JBool false => Some "false"
  | JNum x => Some (Number.toString x)
  | JStr s => Some s
  | JArr items =>
      let fix elements (l : list JValue) : option (list string) :=
        match l with
        | [] => Some []
        | x :: rest =>
            match (match x with
                   | JUndefined | JNull => Some EmptyString
                   | _ => ToString x
                   end) with
            | Some s =>
                match elements rest with
                | Some parts => Some (s :: parts)
                | None => None
                end
            | None => None
            end
        end in
      match elements items with
      | Some parts => Some (join "," parts)
      | None => None
      end
  | JObj props => if hasOwn "toString" props then None else Some "[object Object]"
  end.

(** [v?.k] for the property names read by the client ([message], [error],
    [code], [details], [retry_after]): primitives and arrays have no such
    property. *)
Definition optGet (v : JValue) (k : string) : JValue :=
  match v with
  | JObj props => assoc k props
  | _ => JUndefined
  end.

(** [Array.isArray(v)] *)
Definition isArray (v : JValue) : bool :=
  match v with JArr _ => true | _ => false end.

(** [s.includes(sub)] *)
Fixpoint includes (sub s : string) : bool :=
  String.prefix sub s ||
  match s with
  | EmptyString => false
  | String _ rest => includes sub rest
  end.

End JS.
Export JS.

(** ** client/errors.ts *)

Inductive ErrorKind : Type :=
| GENERIC | AUTHENTICATION | AUTHORIZATION | NOT_FOUND | VALIDATION
| RATE_LIMIT | NETWORK | SERVER | TIMEOUT.

(** An instance of [RelayError] or of one of its subclasses.  [kind] is
    the class of the instance; [status] is [None] for [undefined]; [code],
    [details] and [retryAfter] hold [JUndefined] when not set. *)
Record RelayError : Type := mkRelayError {
  kind : ErrorKind;
  name : string;
  message : string;
  status : option Z;
  code : JValue;
  details : JValue;
  retryAfter : JValue
}.

(** *** Thrown values and completions *)

(** A value that is thrown (or with which a promise is rejected): an
    instance of [RelayError], or any other value [v] together with the
    answer to [v instanceof TypeError].  An [Error] object is the object
    of its properties, [{ message: ... }]. *)
Inductive Thrown : Type :=
| ThrownRelay (e : RelayError)
| ThrownValue (isTypeError : bool) (v : JValue).

(** [new Error(msg)] *)
Definition new_Error (msg : string) : Thrown :=
  ThrownValue false (JObj [("message", JStr msg)]).

(** [new TypeError(msg)] *)
Definition new_TypeError (msg : string) : Thrown :=
  ThrownValue true (JObj [("message", JStr msg)]).

Inductive Completion (A : Type) : Type :=
| Normal (a : A)
| Throw (t : Thrown).
Arguments Normal {A} a.
Arguments Throw {A} t.

(** Sequencing of two computations that may throw. *)
Definition andThen {A B} (c : Completion A) (k : A -> Completion B) : Completion B :=
  match c with
  | Normal a => k a
  | Throw t => Throw t
  end.

Notation "'returned' x <- c ; k" := (andThen c (fun x => k))
  (at level 10, x name, c at level 100, k at level 200).

(** The [TypeError] of a conversion to a primitive that fails (the
    message is V8's). *)
Definition conversionError : Thrown :=
  new_TypeError "Cannot convert object to primitive value".

(** [String(v)] as a computation. *)
Definition String_ (v : JValue) : Completion string :=
  match ToString v with
  | Some s => Normal s
  | None => Throw conversionError
  end.

(** *** The error classes *)

(** [super(message)] of [Error]: an [undefined] message leaves the
    inherited empty message, any other value is converted to a string,
    which may throw. *)
Definition Error_message (m : JValue) : Completion string :=
  match m with
  | JUndefined => Normal EmptyString
  | _ => String_ m
  end.

(** A parameter with a default value: the default applies to [undefined]. *)
Definition defaultTo (arg dflt : JValue) : JValue :=
  match arg with
  | JUndefined => dflt
  | _ => arg
  end.

Definition new_RelayError (message : JValue) (status : option Z)
    (code details : JValue) : Completion RelayError :=
  returned text <- Error_message message;
  Normal {| kind := GENERIC; name := "RelayError";
            message := text; status := status;
            code := code; details := details; retryAfter := JUndefined |}.

(** The part of a subclass constructor that follows [super(...)]. *)
Definition subclass (k : ErrorKind) (n : string) (e : RelayError) : RelayError :=
  {| kind := k; name := n; message := message e; status := status e;
     code := code e; details := details e; retryAfter := retryAfter e |}.

Definition new_AuthenticationError (message details : JValue)
    : Completion RelayError :=
  let message := defaultTo message (JStr "Authentication failed") in
  returned this <-
    new_RelayError message (Some 401%Z) (JStr "AUTHENTICATION_ERROR") details;
  Normal (subclass AUTHENTICATION "AuthenticationError" this).

Definition new_AuthorizationError (message details : JValue)
    : Completion RelayError :=
  let message := defaultTo message (JStr "Insufficient permissions") in
  returned this <-
    new_RelayError message (Some 403%Z) (JStr "AUTHORIZATION_ERROR") details;
  Normal (subclass AUTHORIZATION "AuthorizationError" this).

Definition new_NotFoundError (message details : JValue) : Completion RelayError :=
  let message := defaultTo message (JStr "Resource not found") in
  returned this <- new_RelayError message (Some 404%Z) (JStr "NOT_FOUND") details;
  Normal (subclass NOT_FOUND "NotFoundError" this).

Definition new_ValidationError (message details : JValue)
    : Completion RelayError :=
  let message := defaultTo message (JStr "Validation failed") in
  returned this <-
    new_RelayError message (Some 400%Z) (JStr "VALIDATION_ERROR") details;
  Normal (subclass VALIDATION "ValidationError" this).

(** [this.retryAfter = retryAfter] *)
Definition set_retryAfter (r : JValue) (e : RelayError) : RelayError :=
  {| kind := kind e; name := name e; message := message e;
     status := status e; code := code e; details := details e;
     retryAfter := r |}.

Definition new_RateLimitError (message retryAfter details : JValue)
    : Completion RelayError :=
  let message := defaultTo message (JStr "Rate limit exceeded") in
  returned this <-
    new_RelayError message (Some 429%Z) (JStr "RATE_LIMIT_ERROR") details;
  Normal (set_retryAfter retryAfter (subclass RATE_LIMIT "RateLimitError" this)).

Definition new_NetworkError (message details : JValue) : Completion RelayError :=
  let message := defaultTo message (JStr "Network request failed") in
  returned this <- new_RelayError message None (JStr "NETWORK_ERROR") details;
  Normal (subclass NETWORK "NetworkError" this).

(** [status: number = 500]: [None] stands for an omitted status. *)
Definition new_ServerError (message : JValue) (status : option Z)
    (details : JValue) : Completion RelayError :=
  let message := defaultTo message (JStr "Internal server error") in
  let status := default 500%Z status in
  returned this <-
    new_RelayError message (Some status) (JStr "SERVER_ERROR") details;
  Normal (subclass SERVER "ServerError" this).

Definition new_TimeoutError (message details : JValue) : Completion RelayError :=
  let message := defaultTo message (JStr "Request timeout") in
  returned this <- new_RelayError message (Some 408%Z) (JStr "TIMEOUT_ERROR") details;
  Normal (subclass TIMEOUT "TimeoutError" this).

(** ** utils/query-params.ts *)

(** *** The platform's [URLSearchParams]

    [URLSearchParams.prototype.toString] is the
    application/x-www-form-urlencoded serializer: in names and values a
    space becomes [+], the bytes of ASCII letters and digits and of
    [*], [-], [.], [_] are kept, and every other byte of the UTF-8
    encoding becomes [%XX] in upper-case hexadecimal. *)

Module URLSearchParams.

Definition is_alnum (c : ascii) : bool :=
  let n := N_of_ascii c in
  ((48 <=? n) && (n <=? 57) || (65 <=? n) && (n <=? 90)
   || (97 <=? n) && (n <=? 122))%N.

Definition is_kept (c : ascii) : bool :=
  is_alnum c
  || Ascii.eqb c "*" || Ascii.eqb c "-" || Ascii.eqb c "." || Ascii.eqb c "_".

Definition hex_digit (n : N) : ascii :=
  if (n <? 10)%N then ascii_of_N (48 + n) else ascii_of_N (55 + n).

Definition encode_byte (c : ascii) : string :=
  if Ascii.eqb c " " then "+"
  else if is_kept c then String c EmptyString
  else
    let n := N_of_ascii c in
    String "%" (String (hex_digit (n / 16)) (String (hex_digit (n mod 16)) EmptyString)).

Fixpoint encode (s : string) : string :=
  match s with
  | EmptyString => EmptyString
  | String c rest => encode_byte c +:+ encode rest
  end.

Definition encode_pair (p : string * string) : string :=
  encode p.1 +:+ "=" +:+ encode p.2.

(** The list of pairs of a [URLSearchParams] object, in the order of the
    calls to [append]. *)
Definition toString (pairs : list (string * string)) : string :=
  join "&" (map encode_pair pairs).

End URLSearchParams.

(** The results of [f] on the elements of [l] in turn, until one throws. *)
Fixpoint forEach {A B} (f : A -> Completion B) (l : list A) : Completion (list B) :=
  match l with
  | [] => Normal []
  | x :: rest =>
      returned y <- f x;
      returned ys <- forEach f rest;
      Normal (y :: ys)
  end.

(** The pairs appended for one entry of [Object.entries(params)]. *)
Definition entryPairs (entry : string * JValue) : Completion (list (string * string)) :=
  let '(key, value) := entry in
  match value with
  | JUndefined | JNull => Normal []
  | JArr items =>
      forEach (fun item => returned text <- String_ item; Normal (key, text)) items
  | _ => returned text <- String_ value; Normal [(key, text)]
  end.

Definition buildQueryString (params : list (string * JValue)) : Completion string :=
  returned appended <- forEach entryPairs params;
  let searchParams := concat appended in
  Normal (URLSearchParams.toString searchParams).

Definition appendQueryParams (url : string) (params : list (string * JValue))
    : Completion string :=
  returned queryString <- buildQueryString params;
  if String.eqb queryString EmptyString then Normal url
  else
    let separator := if includes "?" url then "&" else "?" in
    Normal (url +:+ separator +:+ queryString).

(** ** The trace of calls *)

Module RequestInit.
(** The [RequestInit] assembled by [request]; [body] is [None] when no
    body is attached. *)
Record t : Type := mk {
  method : string;
  headers : gmap string string;
  credentials : string;
  body : option string
}.
Definition set_body (b : option string) (r : t) : t :=
  {| method := method r; headers := headers r;
     credentials := credentials r; body := b |}.
End RequestInit.

Module Response.
(** What the client reads of a [Response]: [status], the value of
    [headers.get("content-type")] ([None] for [null]), and the outcomes
    of [json()] and [text()] ([None] when the promise is rejected). *)
Record t : Type := mk {
  status : Z;
  content_type : option string;
  json : option JValue;
  text : option string
}.
(** [response.ok] *)
Definition ok (r : t) : bool := (200 <=? status r)%Z && (status r <=? 299)%Z.
End Response.

Inductive Event : Type :=
| CallOnRequest (url : string) (options : RequestInit.t)
| CallFetch (url : string) (options : RequestInit.t) (timeout : Z)
| CallOnResponse (response : Response.t)
| CallOnError (error : RelayError)
| ConstructHTTPClient (baseURL apiKey : string).

(** A computation: the calls it made, in order, and how it completed. *)
Definition Eff (A : Type) : Type := list Event * Completion A.

Definition ret {A} (a : A) : Eff A := ([], Normal a).
Definition throw {A} (t : Thrown) : Eff A := ([], Throw t).
Definition lift {A} (c : Completion A) : Eff A := ([], c).

Definition bind {A B} (m : Eff A) (k : A -> Eff B) : Eff B :=
  match m with
  | (tr, Normal a) => let '(tr', r) := k a in ((tr ++ tr')%list, r)
  | (tr, Throw t) => (tr, Throw t)
  end.

(** [try { m } catch (error) { handler }] *)
Definition try_catch {A} (m : Eff A) (handler : Thrown -> Eff A) : Eff A :=
  match m with
  | (tr, Normal a) => (tr, Normal a)
  | (tr, Throw t) => let '(tr', r) := handler t in ((tr ++ tr')%list, r)
  end.

(** A call that is recorded and completes as [c]. *)
Definition call {A} (ev : Event) (c : Completion A) : Eff A := ([ev], c).

Notation "'await' x <- m ; k" := (bind m (fun x => k))
  (at level 10, x name, m at level 100, k at level 200).
Notation "'perform' m ; k" := (bind m (fun _ => k))
  (at level 10, m at level 100, k at level 200).

(** ** client/http-client.ts *)

Module RequestOptions.
(** [method] is one of "GET", "POST", "PUT", "PATCH", "DELETE"; an
    omitted field is [None], an omitted [body] is [JUndefined]. *)
Record t : Type := mk {
  method : option string;
  headers : option (gmap string string);
  body : JValue;
  query : option (list (string * JValue));
  timeout : option Z;
  credentials : option string
}.
(** [{}] *)
Definition empty : t :=
  {| method := None; headers := None; body := JUndefined; query := None;
     timeout := None; credentials := None |}.
End RequestOptions.

(** A hook returns how its (awaited) call completed. *)
Definition Hook (A : Type) : Type := option (A -> Completion unit).

Module HTTPClientConfig.
Record t : Type := mk {
  baseURL : string;
  apiKey : string;
  timeout : option Z;
  headers : option (gmap string string);
  onRequest : Hook (string * RequestInit.t);
  onResponse : Hook Response.t;
  onError : Hook RelayError
}.
End HTTPClientConfig.

Record HTTPClient : Type := mkHTTPClient {
  baseURL : string;
  apiKey : string;
  timeout : Z;
  defaultHeaders : gmap string string;
  onRequest : Hook (string * RequestInit.t);
  onResponse : Hook Response.t;
  onError : Hook RelayError
}.

(** [s.replace(/\/$/, EMPTY)]: one trailing slash is removed. *)
Fixpoint removeTrailingSlash (s : string) : string :=
  match s with
  | EmptyString => EmptyString
  | String c EmptyString => if Ascii.eqb c "/" then EmptyString else s
  | String c rest => String c (removeTrailingSlash rest)
  end.

(** [{ ...a, ...b }]: the properties of [b] win. *)
Definition spread (a b : gmap string string) : gmap string string := b ∪ a.

Definition new_HTTPClient (config : HTTPClientConfig.t) : HTTPClient :=
  {| baseURL := removeTrailingSlash (HTTPClientConfig.baseURL config);
     apiKey := HTTPClientConfig.apiKey config;
     timeout := default 30000%Z (HTTPClientConfig.timeout config);
     defaultHeaders :=
       spread
         (<["User-Agent" := "relay-api-client-typescript/1.0.0"]>
            {["Content-Type" := "application/json"]})
         (default ∅ (HTTPClientConfig.headers config));
     onRequest := HTTPClientConfig.onRequest config;
     onResponse := HTTPClientConfig.onResponse config;
     onError := HTTPClientConfig.onError config |}.

(** [if (hook) { await hook(arg) }] *)
Definition runHook {A} (hook : Hook A) (ev : Event) (arg : A) : Eff unit :=
  match hook with
  | Some h => call ev (h arg)
  | None => ret tt
  end.

(** *** The platform's [JSON.stringify] *)

Module JSON.

Definition dquote : string := String "034"%char EmptyString.
Definition backslash : string := String "092"%char EmptyString.

Definition hex_lower (n : N) : ascii :=
  if (n <? 10)%N then ascii_of_N (48 + n) else ascii_of_N (87 + n).

Definition escape_byte (c : ascii) : string :=
  let n := N_of_ascii c in
  if (n =? 34)%N then backslash +:+ dquote
  else if (n =? 92)%N then backslash +:+ backslash
  else if (n =? 8)%N then backslash +:+ "b"
  else if (n =? 12)%N then backslash +:+ "f"
  else if (n =? 10)%N then backslash +:+ "n"
  else if (n =? 13)%N then backslash +:+ "r"
  else if (n =? 9)%N then backslash +:+ "t"
  else if (n <? 32)%N then
    backslash +:+ "u00" +:+
    String (hex_lower (n / 16)) (String (hex_lower (n mod 16)) EmptyString)
  else String c EmptyString.

Fixpoint escape (s : string) : string :=
  match s with
  | EmptyString => EmptyString
  | String c rest => escape_byte c +:+ escape rest
  end.

Definition quote (s : string) : string := dquote +:+ escape s +:+ dquote.

(** The serialization of a value other than [undefined]: a number that
    is not finite is written [null]; in an array [undefined] is written
    [null]; in an object a property whose value is [undefined] is left
    out. *)
Fixpoint serialize (v : JValue) : string :=
  match v with
  | JUndefined | JNull => "null"
  | JBool true => "true"
  | JBool false => "false"
  | JNum x =>
      match x with
      | Number.NaN | Number.Infinity _ => "null"
      | _ => Number.toString x
      end
  | JStr s => quote s
  | JArr items => "[" +:+ join "," (map serialize items) +:+ "]"
  | JObj props =>
      "{" +:+
      join ","
        (flat_map (fun p => match p.2 with
                            | JUndefined => []
                            | _ => [quote p.1 +:+ ":" +:+ serialize p.2]
                            end) props)
      +:+ "}"
  end.

(** [JSON.stringify(v)]; [None] stands for the result [undefined]. *)
Definition stringify (v : JValue) : option string :=
  match v with
  | JUndefined => None
  | _ => Some (serialize v)
  end.

End JSON.

(** [typeof v === "string"] *)
Definition isString (v : JValue) : bool :=
  match v with JStr _ => true | _ => false end.

(** *** The network

    [Promise.race([fetch(url, requestOptions), timeoutPromise])] settles
    with the response, with the rejection of [fetch], or with the
    rejection of the timer; which one is the environment's choice. *)
Inductive RaceOutcome : Type :=
| Responded (response : Response.t)
| FetchRejected (reason : Thrown)
| TimerFired.

Definition Network : Type := string -> RequestInit.t -> Z -> RaceOutcome.

Section Methods.

Variable this : HTTPClient.

Definition createErrorFromResponse (status : Z) (data : JValue)
    : Completion RelayError :=
  let message :=
    or_else (or_else (optGet data "message") (optGet data "error"))
            (JStr "An error occurred") in
  let code := optGet data "code" in
  let details := optGet data "details" in
  match status with
  | 401 => new_AuthenticationError message details
  | 403 => new_AuthorizationError message details
  | 404 => new_NotFoundError message details
  | 400 | 422 => new_ValidationError message details
  | 429 =>
      let retryAfter := optGet data "retry_after" in
      new_RateLimitError message retryAfter details
  | 500 | 502 | 503 | 504 => new_ServerError message (Some status) details
  | _ => new_RelayError message (Some status) code details
  end%Z.

(** [error.message]: reading a property of [null] or [undefined] throws
    a [TypeError] (the message is V8's). *)
Definition get_message (error : JValue) : Completion JValue :=
  match error with
  | JUndefined =>
      Throw (new_TypeError "Cannot read properties of undefined (reading 'message')")
  | JNull =>
      Throw (new_TypeError "Cannot read properties of null (reading 'message')")
  | _ => Normal (optGet error "message")
  end.

(** [v === "Failed to fetch"] *)
Definition is_failed_to_fetch (v : JValue) : bool :=
  match v with
  | JStr s => String.eqb s "Failed to fetch"
  | _ => false
  end.

Definition handleError (error : Thrown) : Completion RelayError :=
  match error with
  | ThrownRelay e => Normal e
  | ThrownValue isTypeError v =>
      match get_message v with
      | Throw t => Throw t
      | Normal msg =>
          if isTypeError || is_failed_to_fetch msg then
            new_NetworkError
              (JStr "Network request failed. Please check your connection.")
              (JObj [("originalError", msg)])
          else
            new_RelayError
              (or_else msg (JStr "An unknown error occurred"))
              None (JStr "UNKNOWN_ERROR")
              (JObj [("originalError", v)])
      end
  end.

(** [contentType?.includes("application/json")], as a test. *)
Definition isJSON (response : Response.t) : bool :=
  let contentType := Response.content_type response in
  match contentType with
  | Some ct => includes "application/json" ct
  | None => false
  end.

(** The [data] computed by [handleResponse]. *)
Definition parseBody (response : Response.t) : JValue :=
  if isJSON response then
    match Response.json response with
    | Some data => data
    | None => emptyObject
    end
  else
    match Response.text response with
    | Some text =>
        if negb (String.eqb text EmptyString)
        then JObj [("message", JStr text)] else emptyObject
    | None => emptyObject
    end.

Definition handleResponse (response : Response.t) : Completion JValue :=
  let data := parseBody response in
  if negb (Response.ok response) then
    returned error <- createErrorFromResponse (Response.status response) data;
    Throw (ThrownRelay error)
  else Normal data.

(** The URL requested for [path] and [options]; building the query may
    throw. *)
Definition requestURL (path : string) (options : RequestOptions.t)
    : Completion string :=
  let url := baseURL this +:+ path in
  match RequestOptions.query options with
  | Some query => appendQueryParams url query
  | None => Normal url
  end.

(** The [requestOptions] assembled for [options]. *)
Definition requestInit (options : RequestOptions.t) : RequestInit.t :=
  let method := default "GET" (RequestOptions.method options) in
  let headers := default ∅ (RequestOptions.headers options) in
  let body := RequestOptions.body options in
  let credentials := default "same-origin" (RequestOptions.credentials options) in
  let requestHeaders :=
    <["Authorization" := "Bearer " +:+ apiKey this]>
      (spread (defaultHeaders this) headers) in
  let requestOptions :=
    {| RequestInit.method := method; RequestInit.headers := requestHeaders;
       RequestInit.credentials := credentials; RequestInit.body := None |} in
  if truthy body && negb (String.eqb method "GET") then
    RequestInit.set_body
      (match body with JStr s => Some s | _ => JSON.stringify body end)
      requestOptions
  else requestOptions.

(** The body of the [try] block. *)
Definition attempt (net : Network) (url : string)
    (requestOptions : RequestInit.t) (timeout : Z) : Eff JValue :=
  await response <-
    call (CallFetch url requestOptions timeout)
      (match net url requestOptions timeout with
       | Responded response => Normal response
       | FetchRejected reason => Throw reason
       | TimerFired =>
           returned error <-
             new_TimeoutError
               (JStr ("Request timeout after " +:+ Number.toString timeout
                      +:+ "ms"))
               JUndefined;
           Throw (ThrownRelay error)
       end);
  perform runHook (onResponse this) (CallOnResponse response) response;
  lift (handleResponse response).

(** The body of the [catch] block. *)
Definition recover (error : Thrown) : Eff JValue :=
  await relayError <- lift (handleError error);
  perform runHook (onError this) (CallOnError relayError) relayError;
  throw (ThrownRelay relayError).

Definition request (net : Network) (path : string)
    (options : RequestOptions.t) : Eff JValue :=
  let timeout := default (timeout this) (RequestOptions.timeout options) in
  await url <- lift (requestURL path options);
  let requestOptions := requestInit options in
  perform runHook (onRequest this) (CallOnRequest url requestOptions)
            (url, requestOptions);
  try_catch (attempt net url requestOptions timeout) recover.

(** [{ ...options, method: m }] and the like. *)
Definition with_method (m : string) (o : RequestOptions.t) : RequestOptions.t :=
  {| RequestOptions.method := Some m;
     RequestOptions.headers := RequestOptions.headers o;
     RequestOptions.body := RequestOptions.body o;
     RequestOptions.query := RequestOptions.query o;
     RequestOptions.timeout := RequestOptions.timeout o;
     RequestOptions.credentials := RequestOptions.credentials o |}.

Definition with_body (b : JValue) (o : RequestOptions.t) : RequestOptions.t :=
  {| RequestOptions.method := RequestOptions.method o;
     RequestOptions.headers := RequestOptions.headers o;
     RequestOptions.body := b;
     RequestOptions.query := RequestOptions.query o;
     RequestOptions.timeout := RequestOptions.timeout o;
     RequestOptions.credentials := RequestOptions.credentials o |}.

Definition with_query (q : option (list (string * JValue)))
    (o : RequestOptions.t) : RequestOptions.t :=
  {| RequestOptions.method := RequestOptions.method o;
     RequestOptions.headers := RequestOptions.headers o;
     RequestOptions.body := RequestOptions.body o;
     RequestOptions.query := q;
     RequestOptions.timeout := RequestOptions.timeout o;
     RequestOptions.credentials := RequestOptions.credentials o |}.

End Methods.

(** The wrappers of [request]: [{ ...options, method: ..., ... }]. *)
Module Wrappers.

Definition get (this : HTTPClient) (net : Network) (path : string)
    (query : option (list (string * JValue))) (options : RequestOptions.t) :=
  request this net path (with_query query (with_method "GET" options)).

Definition post (this : HTTPClient) (net : Network) (path : string)
    (body : JValue) (options : RequestOptions.t) :=
  request this net path (with_body body (with_method "POST" options)).

Definition put (this : HTTPClient) (net : Network) (path : string)
    (body : JValue) (options : RequestOptions.t) :=
  request this net path (with_body body (with_method "PUT" options)).

Definition patch (this : HTTPClient) (net : Network) (path : string)
    (body : JValue) (options : RequestOptions.t) :=
  request this net path (with_body body (with_method "PATCH" options)).

Definition delete (this : HTTPClient) (net : Network) (path : string)
    (options : RequestOptions.t) :=
  request this net path (with_method "DELETE" options).

End Wrappers.

(** ** client.ts: the constructor of [RelayClient] *)

Module RelayClientConfig.
Record t : Type := mk {
  apiKey : string;
  tenantId : string;
  baseURL : option string;
  timeout : option Z;
  headers : option (gmap string string);
  onRequest : Hook (string * RequestInit.t);
  onResponse : Hook Response.t;
  onError : Hook RelayError
}.
End RelayClientConfig.

(** What every service keeps of its [serviceConfig] ([BaseService]). *)
Record BaseService : Type := mkService {
  client : HTTPClient;
  service_tenantId : string
}.

Record RelayClient : Type := mkRelayClient {
  httpClient : HTTPClient;
  tenantId : string;
  workflows : BaseService;
  tools : BaseService;
  credentials : BaseService;
  channels : BaseService;
  apiKeys : BaseService;
  invitations : BaseService;
  webhooks : BaseService
}.

(** [!s] for a string. *)
Definition is_empty (s : string) : bool := String.eqb s EmptyString.

Definition new_RelayClient (config : RelayClientConfig.t) : Eff RelayClient :=
  if is_empty (RelayClientConfig.apiKey config) then
    throw (new_Error "API key is required")
  else if is_empty (RelayClientConfig.tenantId config) then
    throw (new_Error "Tenant ID is required")
  else
    let tenantId := RelayClientConfig.tenantId config in
    let httpClientConfig :=
      {| HTTPClientConfig.baseURL :=
           default "https://api.relay.com" (RelayClientConfig.baseURL config);
         HTTPClientConfig.apiKey := RelayClientConfig.apiKey config;
         HTTPClientConfig.timeout := RelayClientConfig.timeout config;
         HTTPClientConfig.headers := RelayClientConfig.headers config;
         HTTPClientConfig.onRequest := RelayClientConfig.onRequest config;
         HTTPClientConfig.onResponse := RelayClientConfig.onResponse config;
         HTTPClientConfig.onError := RelayClientConfig.onError config |} in
    await httpClient <-
      call (ConstructHTTPClient (HTTPClientConfig.baseURL httpClientConfig)
              (HTTPClientConfig.apiKey httpClientConfig))
           (Normal (new_HTTPClient httpClientConfig));
    let serviceConfig := {| client := httpClient; service_tenantId := tenantId |} in
    ret {| httpClient := httpClient; tenantId := tenantId;
           workflows := serviceConfig; tools := serviceConfig;
           credentials := serviceConfig; channels := serviceConfig;
           apiKeys := serviceConfig; invitations := serviceConfig;
           webhooks := serviceConfig |}.

(** [getBaseURL()] and [getTenantId()] *)
Definition getBaseURL (this : RelayClient) : string := baseURL (httpClient this).

Definition getTenantId (this : RelayClient) : string := tenantId this.

(** ** services/base.service.ts *)

(** [basePath] is the abstract field every service class sets. *)
Definition buildPath (this : BaseService) (basePath path : string) : string :=
  let tenantBasePath := "/api/tenant/" +:+ service_tenantId this in
  let cleanPath := if String.prefix "/" path then path else "/" +:+ path in
  tenantBasePath +:+ basePath +:+ cleanPath.

Definition buildAbsolutePath (path : string) : string := path.

(** *** The platform's [encodeURIComponent]

    The bytes of ASCII letters and digits and of [-], [_], [.], [!], [~],
    [*], ['], [(], [)] are kept; every other byte of the UTF-8 encoding
    becomes [%XX] in upper-case hexadecimal. *)

Module URIComponent.

Definition is_unreserved (c : ascii) : bool :=
  URLSearchParams.is_alnum c
  || Ascii.eqb c "-" || Ascii.eqb c "_" || Ascii.eqb c "." || Ascii.eqb c "!"
  || Ascii.eqb c "~" || Ascii.eqb c "*" || Ascii.eqb c "'" || Ascii.eqb c "("
  || Ascii.eqb c ")".

Definition encode_byte (c : ascii) : string :=
  if is_unreserved c then String c EmptyString
  else
    let n := N_of_ascii c in
    String "%" (String (URLSearchParams.hex_digit (n / 16))
                  (String (URLSearchParams.hex_digit (n mod 16)) EmptyString)).

Fixpoint encodeURIComponent (s : string) : string :=
  match s with
  | EmptyString => EmptyString
  | String c rest => encode_byte c +:+ encodeURIComponent rest
  end.

End URIComponent.

(** ** services/workflow.service.ts

    A call [this.client.get(path)] leaves the query and the options
    [undefined]; a call [this.client.post(path)] leaves the body
    [undefined]. *)

Module WorkflowService.

Definition basePath : string := "/workflows".

Definition create (this : BaseService) (net : Network) (request : JValue) :=
  Wrappers.post (client this) net (buildPath this basePath EmptyString) request
    RequestOptions.empty.

Definition list (this : BaseService) (net : Network)
    (params : option (list (string * JValue))) :=
  Wrappers.get (client this) net (buildPath this basePath EmptyString) params
    RequestOptions.empty.

Definition get (this : BaseService) (net : Network) (id : string) :=
  Wrappers.get (client this) net (buildPath this basePath ("/" +:+ id)) None
    RequestOptions.empty.

Definition getByName (this : BaseService) (net : Network) (name : string) :=
  Wrappers.get (client this) net
    (buildPath this basePath ("/name/" +:+ URIComponent.encodeURIComponent name))
    None RequestOptions.empty.

Definition update (this : BaseService) (net : Network) (id : string)
    (request : JValue) :=
  Wrappers.put (client this) net (buildPath this basePath ("/" +:+ id)) request
    RequestOptions.empty.

Definition delete (this : BaseService) (net : Network) (id : string) :=
  Wrappers.delete (client this) net (buildPath this basePath ("/" +:+ id))
    RequestOptions.empty.

Definition activate (this : BaseService) (net : Network) (id : string) :=
  Wrappers.put (client this) net
    (buildPath this basePath ("/" +:+ id +:+ "/activate")) JUndefined
    RequestOptions.empty.

Definition deactivate (this : BaseService) (net : Network) (id : string) :=
  Wrappers.put (client this) net
    (buildPath this basePath ("/" +:+ id +:+ "/deactivate")) JUndefined
    RequestOptions.empty.

Definition execute (this : BaseService) (net : Network) (id : string)
    (request : JValue) :=
  Wrappers.post (client this) net
    (buildPath this basePath ("/" +:+ id +:+ "/execute")) request
    RequestOptions.empty.

Definition test (this : BaseService) (net : Network) (request : JValue) :=
  Wrappers.post (client this) net (buildPath this basePath "/test") request
    RequestOptions.empty.

Definition validate (this : BaseService) (net : Network) (request : JValue) :=
  Wrappers.post (client this) net (buildAbsolutePath "/api/workflows/validate")
    request RequestOptions.empty.

Definition bulkActivate (this : BaseService) (net : Network)
    (workflowIds : Datatypes.list string) :=
  Wrappers.put (client this) net (buildPath this basePath "/bulk/activate")
    (JObj [("workflow_ids", JArr (map JStr workflowIds))]) RequestOptions.empty.

Definition bulkDeactivate (this : BaseService) (net : Network)
    (workflowIds : Datatypes.list string) :=
  Wrappers.put (client this) net (buildPath this basePath "/bulk/deactivate")
    (JObj [("workflow_ids", JArr (map JStr workflowIds))]) RequestOptions.empty.

Definition getNodeTypes (this : BaseService) (net : Network) :=
  Wrappers.get (client this) net (buildAbsolutePath "/api/nodes/types") None
    RequestOptions.empty.

Definition getNodeTypeSchema (this : BaseService) (net : Network) (type : string) :=
  Wrappers.get (client this) net
    (buildAbsolutePath ("/api/nodes/types/" +:+ type +:+ "/schema")) None
    RequestOptions.empty.

Definition getTriggerTypes (this : BaseService) (net : Network) :=
  Wrappers.get (client this) net (buildAbsolutePath "/api/triggers/types") None
    RequestOptions.empty.

End WorkflowService.

(** ** services/invitation.service.ts *)

Module InvitationService.

Definition basePath : string := EmptyString.

Definition buildInvitationPath (path : string) : string :=
  buildAbsolutePath ("/invitations" +:+ path).

Definition create (this : BaseService) (net : Network) (request : JValue) :=
  Wrappers.post (client this) net (buildInvitationPath EmptyString) request
    RequestOptions.empty.

Definition list (this : BaseService) (net : Network) :=
  Wrappers.get (client this) net (buildInvitationPath EmptyString) None
    RequestOptions.empty.

Definition listPending (this : BaseService) (net : Network) :=
  Wrappers.get (client this) net (buildInvitationPath "/pending") None
    RequestOptions.empty.

Definition get (this : BaseService) (net : Network) (id : string) :=
  Wrappers.get (client this) net (buildInvitationPath ("/" +:+ id)) None
    RequestOptions.empty.

Definition delete (this : BaseService) (net : Network) (id : string) :=
  Wrappers.delete (client this) net (buildInvitationPath ("/" +:+ id))
    RequestOptions.empty.

Definition revoke (this : BaseService) (net : Network) (id : string) :=
  Wrappers.post (client this) net (buildInvitationPath ("/" +:+ id +:+ "/revoke"))
    JUndefined RequestOptions.empty.

Definition validateToken (this : BaseService) (net : Network) (token : string) :=
  Wrappers.get (client this) net (buildInvitationPath "/public/validate")
    (Some [("token", JStr token)]) RequestOptions.empty.

Definition getByToken (this : BaseService) (net : Network) (token : string) :=
  Wrappers.get (client this) net
    (buildInvitationPath ("/public/token/" +:+ token)) None RequestOptions.empty.

End InvitationService.

(** ** services/api-key.service.ts *)

Module APIKeyService.

Definition basePath : string := EmptyString.

Definition buildKeyPath (path : string) : string :=
  buildAbsolutePath ("/api-keys" +:+ path).

Definition create (this : BaseService) (net : Network) (request : JValue) :=
  Wrappers.post (client this) net (buildKeyPath EmptyString) request
    RequestOptions.empty.

Definition list (this : BaseService) (net : Network) :=
  Wrappers.get (client this) net (buildKeyPath EmptyString) None
    RequestOptions.empty.

Definition get (this : BaseService) (net : Network) (id : string) :=
  Wrappers.get (client this) net (buildKeyPath ("/" +:+ id)) None
    RequestOptions.empty.

Definition update (this : BaseService) (net : Network) (id : string)
    (request : JValue) :=
  Wrappers.put (client this) net (buildKeyPath ("/" +:+ id)) request
    RequestOptions.empty.

Definition revoke (this : BaseService) (net : Network) (id : string) :=
  Wrappers.post (client this) net (buildKeyPath ("/" +:+ id +:+ "/revoke"))
    JUndefined RequestOptions.empty.

Definition delete (this : BaseService) (net : Network) (id : string) :=
  Wrappers.delete (client this) net (buildKeyPath ("/" +:+ id))
    RequestOptions.empty.

End APIKeyService.

(** ** services/webhook.service.ts *)

Module WebhookService.

Definition basePath : string := "/webhooks/wait".

Definition listWaitInstances (this : BaseService) (net : Network) :=
  Wrappers.get (client this) net (buildPath this basePath EmptyString) None
    RequestOptions.empty.

End WebhookService.

(** * Vocabulary of the properties *)

(** The status column of the taxonomy table, as the specification lists it. *)
Definition taxonomy (status : Z) : ErrorKind :=
  if decide (status = 401)%Z then AUTHENTICATION
  else if decide (status = 403)%Z then AUTHORIZATION
  else if decide (status = 404)%Z then NOT_FOUND
  else if decide (status = 400 \/ status = 422)%Z then VALIDATION
  else if decide (status = 429)%Z then RATE_LIMIT
  else if decide (status ∈ [500; 502; 503; 504]%Z) then SERVER
  else GENERIC.

(** The message a response body supplies, if any: [data.message], or else
    [data.error]. *)
Definition suppliedMessage (data : JValue) : JValue :=
  or_else (optGet data "message") (optGet data "error").

(** The message handed to the constructors by [createErrorFromResponse]. *)
Definition classifiedMessage (data : JValue) : JValue :=
  or_else (suppliedMessage data) (JStr "An error occurred").

(** The fixed default header set of the constructor. *)
Definition fixedHeaders (k : string) : option string :=
  if decide (k = "Content-Type") then Some "application/json"
  else if decide (k = "User-Agent") then Some "relay-api-client-typescript/1.0.0"
  else None.

(** A hook that is absent or completes normally on [arg]. *)
Definition completes {A} (hook : Hook A) (arg : A) : Prop :=
  match hook with
  | Some h => h arg = Normal tt
  | None => True
  end.

(** Every byte of [s] satisfies [P]. *)
Fixpoint string_forall (P : ascii -> bool) (s : string) : bool :=
  match s with
  | EmptyString => true
  | String c rest => P c && string_forall P rest
  end.

(** The bytes of a serialized query: the bytes the encoding keeps, [+],
    [%], and the separators [=] and [&]. *)
Definition is_query_byte (c : ascii) : bool :=
  URLSearchParams.is_kept c
  || Ascii.eqb c "+" || Ascii.eqb c "%" || Ascii.eqb c "=" || Ascii.eqb c "&".

(** Two query strings put together: [&] separates them when neither is
    empty. *)
Definition ampersand (a b : string) : string :=
  if String.eqb a EmptyString then b
  else if String.eqb b EmptyString then a
  else a +:+ "&" +:+ b.

(** The value of a hexadecimal digit. *)
Definition hex_value (c : ascii) : option N :=
  let n := N_of_ascii c in
  if ((48 <=? n) && (n <=? 57))%N then Some (n - 48)%N
  else if ((65 <=? n) && (n <=? 70))%N then Some (n - 55)%N
  else if ((97 <=? n) && (n <=? 102))%N then Some (n - 87)%N
  else None.

(** What a parser of [application/x-www-form-urlencoded] reads from a
    name or a value: [+] is a space and [%XY] is the byte with the
    hexadecimal digits [X] and [Y]. *)
Fixpoint percent_decode (s : string) : string :=
  match s with
  | EmptyString => EmptyString
  | String c rest =>
      if Ascii.eqb c "+" then String " " (percent_decode rest)
      else if Ascii.eqb c "%" then
        match rest with
        | String h (String l rest') =>
            match hex_value h, hex_value l with
            | Some a, Some b =>
                String (ascii_of_N (16 * a + b)) (percent_decode rest')
            | _, _ => String c (percent_decode rest)
            end
        | _ => String c (percent_decode rest)
        end
      else String c (percent_decode rest)
  end.

(** The pieces of [s] between the occurrences of [sep]. *)
Fixpoint split_on (sep : ascii) (s : string) : list string :=
  match s with
  | EmptyString => [EmptyString]
  | String c rest =>
      if Ascii.eqb c sep then EmptyString :: split_on sep rest
      else
        match split_on sep rest with
        | piece :: pieces => String c piece :: pieces
        | [] => [String c EmptyString]
        end
  end.

(** [s] before and after its first [sep]. *)
Fixpoint cut (sep : ascii) (s : string) : string * string :=
  match s with
  | EmptyString => (EmptyString, EmptyString)
  | String c rest =>
      if Ascii.eqb c sep then (EmptyString, rest)
      else let '(before, after) := cut sep rest in (String c before, after)
  end.

(** The pairs a parser of [application/x-www-form-urlencoded] reads from
    a query: the non-empty pieces between [&], each cut at its first [=]
    and decoded. *)
Definition parse_query (q : string) : list (string * string) :=
  map (fun piece =>
         let '(name, value) := cut "=" piece in
         (percent_decode name, percent_decode value))
    (List.filter (fun piece => negb (String.eqb piece EmptyString))
       (split_on "&" q)).

(** A byte other than [sep]. *)
Definition other_than (sep : ascii) (c : ascii) : bool := negb (Ascii.eqb c sep).

(** The bytes of an encoded name or value. *)
Definition is_value_byte (c : ascii) : bool :=
  URLSearchParams.is_kept c || Ascii.eqb c "+" || Ascii.eqb c "%".

(** * Sample clients, networks and responses *)

(** A configuration without hooks, with a trailing slash in the base URL. *)
Definition plain_config : HTTPClientConfig.t :=
  {| HTTPClientConfig.baseURL := "https://api.relay.com/";
     HTTPClientConfig.apiKey := "relay_test_key";
     HTTPClientConfig.timeout := None;
     HTTPClientConfig.headers := None;
     HTTPClientConfig.onRequest := None;
     HTTPClientConfig.onResponse := None;
     HTTPClientConfig.onError := None |}.

(** A client without hooks. *)
Definition plain_client : HTTPClient := new_HTTPClient plain_config.

(** A client with the given hooks. *)
Definition hooked_client (onRequest : Hook (string * RequestInit.t))
    (onResponse : Hook Response.t) (onError : Hook RelayError) : HTTPClient :=
  new_HTTPClient
    {| HTTPClientConfig.baseURL := "https://api.relay.com";
       HTTPClientConfig.apiKey := "relay_test_key";
       HTTPClientConfig.timeout := Some 5000%Z;
       HTTPClientConfig.headers := None;
       HTTPClientConfig.onRequest := onRequest;
       HTTPClientConfig.onResponse := onResponse;
       HTTPClientConfig.onError := onError |}.

(** A network on which every exchange settles as [outcome]. *)
Definition always (outcome : RaceOutcome) : Network := fun _ _ _ => outcome.

(** A 429 response with a JSON body. *)
Definition response_429 : Response.t :=
  {| Response.status := 429;
     Response.content_type := Some "application/json; charset=utf-8";
     Response.json :=
       Some (JObj [("message", JStr "Slow down"); ("retry_after", JNum 30)]);
     Response.text := None |}.

(** A 404 response with a JSON body. *)
Definition response_404 : Response.t :=
  {| Response.status := 404;
     Response.content_type := Some "application/json";
     Response.json := Some (JObj [("message", JStr "No such workflow")]);
     Response.text := None |}.

(** A 200 response whose body is announced as JSON and is not. *)
Definition response_200_malformed : Response.t :=
  {| Response.status := 200;
     Response.content_type := Some "application/json";
     Response.json := None;
     Response.text := Some "<html>" |}.

(** Per-call options that try to replace the [Authorization] header. *)
Definition overriding_options : RequestOptions.t :=
  {| RequestOptions.method := Some "POST";
     RequestOptions.headers :=
       Some (<["Authorization" := "Basic intruder"]> {["X-Trace" := "1"]});
     RequestOptions.body := JUndefined; RequestOptions.query := None;
     RequestOptions.timeout := None; RequestOptions.credentials := None |}.

(** A response whose body holds a message that [String] cannot convert:
    [{ "message": { "toString": 1 } }]. *)
Definition unconvertible_response (st : Z) : Response.t :=
  {| Response.status := st;
     Response.content_type := Some "application/json";
     Response.json := Some (JObj [("message", JObj [("toString", JNum 1)])]);
     Response.text := None |}.

(** * Vocabulary of the further properties *)

(** A value for which [buildQueryString] appends nothing: [undefined],
    [null] and the empty array. *)
Definition silent (v : JValue) : Prop :=
  v = JUndefined \/ v = JNull \/ v = JArr [].

(** The number of pairs an entry of the mapping stands for. *)
Definition pairsOf (entry : string * JValue) : nat :=
  match entry.2 with
  | JUndefined | JNull => 0
  | JArr items => length items
  | _ => 1
  end.

(** The number of occurrences of the byte [c] in [s]. *)
Fixpoint count_byte (c : ascii) (s : string) : nat :=
  match s with
  | EmptyString => 0
  | String x rest => (if Ascii.eqb x c then 1 else 0) + count_byte c rest
  end.

(** The bytes of an encoded URI component. *)
Definition is_component_byte (c : ascii) : bool :=
  URIComponent.is_unreserved c || Ascii.eqb c "%".

(** The kind of a call, without its arguments. *)
Inductive CallTag : Type :=
| RequestHook | Fetch | ResponseHook | ErrorHook | Construction.

Definition tag (ev : Event) : CallTag :=
  match ev with
  | CallOnRequest _ _ => RequestHook
  | CallFetch _ _ _ => Fetch
  | CallOnResponse _ => ResponseHook
  | CallOnError _ => ErrorHook
  | ConstructHTTPClient _ _ => Construction
  end.


(** A [text/plain] response. *)
Definition text_response (st : Z) (body : string) : Response.t :=
  {| Response.status := st;
     Response.content_type := Some "text/plain";
     Response.json := None;
     Response.text := Some body |}.

(** The body [request] attaches for a body [b] when the method is not
    GET. *)
Definition attachedBody (b : JValue) : option string :=
  if truthy b then Some (match b with JStr s => s | _ => JSON.serialize b end)
  else None.

(** The fixed code of each subclass of [RelayError]. *)
Definition kindCode (k : ErrorKind) : JValue :=
  match k with
  | GENERIC => JUndefined
  | AUTHENTICATION => JStr "AUTHENTICATION_ERROR"
  | AUTHORIZATION => JStr "AUTHORIZATION_ERROR"
  | NOT_FOUND => JStr "NOT_FOUND"
  | VALIDATION => JStr "VALIDATION_ERROR"
  | RATE_LIMIT => JStr "RATE_LIMIT_ERROR"
  | NETWORK => JStr "NETWORK_ERROR"
  | SERVER => JStr "SERVER_ERROR"
  | TIMEOUT => JStr "TIMEOUT_ERROR"
  end.

(** A problem report sent with a content type that does not contain
    [application/json]. *)
Definition problem_response : Response.t :=
  {| Response.status := 409;
     Response.content_type := Some "application/problem+json";
     Response.json := Some (JObj [("title", JStr "Conflict")]);
     Response.text := Some "{ title: Conflict }" |}.

(** A configuration of the top-level client. *)
Definition relay_config : RelayClientConfig.t :=
  {| RelayClientConfig.apiKey := "relay_live_key";
     RelayClientConfig.tenantId := "tenant-123";
     RelayClientConfig.baseURL := None;
     RelayClientConfig.timeout := None;
     RelayClientConfig.headers := None;
     RelayClientConfig.onRequest := None;
     RelayClientConfig.onResponse := None;
     RelayClientConfig.onError := None |}.

(** A service of the tenant [tenant-123] on the client without hooks. *)
Definition sample_service : BaseService :=
  {| client := plain_client; service_tenantId := "tenant-123" |}.

(** * Properties *)

(** ** The error taxonomy *)

(** The [switch] of [createErrorFromResponse] as a chain of tests. *)
Lemma createErrorFromResponse_cases status data :
  createErrorFromResponse status data =
    let message := classifiedMessage data in
    let details := optGet data "details" in
    if decide (status = 401)%Z then new_AuthenticationError message details
    else if decide (status = 403)%Z then new_AuthorizationError message details
    else if decide (status = 404)%Z then new_NotFoundError message details
    else if decide (status = 400 \/ status = 422)%Z
      then new_ValidationError message details
    else if decide (status = 429)%Z
      then new_RateLimitError message (optGet data "retry_after") details
    else if decide (status ∈ [500; 502; 503; 504]%Z)
      then new_ServerError message (Some status) details
    else new_RelayError message (Some status) (optGet data "code") details.
Proof.
  cbv zeta.
  repeat case_decide; subst; try reflexivity.
  - destruct_or!; subst; reflexivity.
  - repeat match goal with
           | H : _ ∈ _ :: _ |- _ => apply elem_of_cons in H as [-> | H]
           | H : _ ∈ [] |- _ => by apply elem_of_nil in H
           end; reflexivity.
  - unfold createErrorFromResponse.
    repeat match goal with
           | |- context [match ?z with _ => _ end] =>
               is_var z; destruct z
           end; try reflexivity; exfalso.
    all: try congruence.
    all: try (match goal with H : ¬ (_ ∨ _) |- _ => apply H; auto; fail end).
    all: match goal with H : _ ∉ _ |- _ => apply H; set_solver end.
Qed.

Lemma classifiedMessage_truthy data : truthy (classifiedMessage data) = true.
Proof.
  unfold classifiedMessage, or_else.
  destruct (truthy (suppliedMessage data)) eqn:E; [exact E | reflexivity].
Qed.

Lemma truthy_defined v : truthy v = true -> v <> JUndefined.
Proof. by intros H ->. Qed.

Lemma defaultTo_defined v dflt : v <> JUndefined -> defaultTo v dflt = v.
Proof. by destruct v. Qed.

Lemma Error_message_defined v : v <> JUndefined -> Error_message v = String_ v.
Proof. by destruct v. Qed.

(** The base constructor on a message that is not [undefined]. *)
Lemma new_RelayError_defined m st c d :
  m <> JUndefined ->
  new_RelayError m st c d =
  match ToString m with
  | Some text =>
      Normal {| kind := GENERIC; name := "RelayError"; message := text;
                status := st; code := c; details := d; retryAfter := JUndefined |}
  | None => Throw conversionError
  end.
Proof.
  intros Hm. unfold new_RelayError. rewrite (Error_message_defined _ Hm).
  unfold String_. by destruct (ToString m).
Qed.

Ltac construct Hm :=
  unfold new_AuthenticationError, new_AuthorizationError, new_NotFoundError,
    new_ValidationError, new_RateLimitError, new_ServerError, new_NetworkError,
    new_TimeoutError;
  cbv zeta; rewrite ?(defaultTo_defined _ _ Hm), ?(new_RelayError_defined _ _ _ _ Hm).

(** When the message cannot be converted, no error is constructed. *)
Lemma createErrorFromResponse_throws st data :
  ToString (classifiedMessage data) = None ->
  createErrorFromResponse st data = Throw conversionError.
Proof.
  intros Hconv.
  pose proof (truthy_defined _ (classifiedMessage_truthy data)) as Hm.
  rewrite createErrorFromResponse_cases. cbv zeta.
  repeat case_decide; construct Hm; by rewrite Hconv.
Qed.

(** What the constructed error carries. *)
Lemma createErrorFromResponse_normal st data e :
  createErrorFromResponse st data = Normal e ->
  ToString (classifiedMessage data) = Some (message e) /\
  kind e = taxonomy st /\
  status e = Some (if decide (st = 422)%Z then 400%Z else st) /\
  (kind e <> GENERIC -> code e = kindCode (kind e)) /\
  (kind e = GENERIC -> code e = optGet data "code") /\
  (kind e = RATE_LIMIT -> retryAfter e = optGet data "retry_after") /\
  (kind e <> RATE_LIMIT -> retryAfter e = JUndefined) /\
  details e = optGet data "details".
Proof.
  pose proof (truthy_defined _ (classifiedMessage_truthy data)) as Hm.
  rewrite createErrorFromResponse_cases. unfold taxonomy. cbv zeta.
  repeat case_decide; construct Hm;
    destruct (ToString (classifiedMessage data)) as [text |]; try discriminate;
    intros [= <-]; cbn; repeat split; try done; try (f_equal; lia).
  all: exfalso;
    repeat match goal with
           | H : _ ∈ _ :: _ |- _ => apply elem_of_cons in H as [H | H]
           | H : _ ∈ [] |- _ => by apply elem_of_nil in H
           end; lia.
Qed.

(** When the message can be converted, an error is constructed with it. *)
Lemma createErrorFromResponse_converts st data text :
  ToString (classifiedMessage data) = Some text ->
  exists e, createErrorFromResponse st data = Normal e /\ message e = text.
Proof.
  intros Hconv.
  pose proof (truthy_defined _ (classifiedMessage_truthy data)) as Hm.
  rewrite createErrorFromResponse_cases. cbv zeta.
  repeat case_decide; construct Hm; rewrite Hconv; eexists; by split.
Qed.

Lemma classifiedMessage_supplied data s :
  optGet data "message" = JStr s -> s <> EmptyString ->
  classifiedMessage data = JStr s.
Proof.
  intros Hm Hs. unfold classifiedMessage, suppliedMessage, or_else.
  rewrite Hm. by destruct s.
Qed.

Lemma handleResponse_failure response e :
  Response.ok response = false ->
  createErrorFromResponse (Response.status response) (parseBody response) = Normal e ->
  handleResponse response = Throw (ThrownRelay e).
Proof. intros Hok He. unfold handleResponse. by rewrite Hok, He. Qed.

(** C1. The code departs from the claim at a 401 response whose body
    holds a message that cannot be converted to a string: the table
    lists AUTHENTICATION for the status and [createErrorFromResponse]
    selects that class, but the constructor of the error throws a
    [TypeError] while it converts the message, which [request] catches
    and classifies as a NETWORK error without status, as if the network
    had failed. *)
Theorem unconvertible_message_misclassified :
  Response.ok (unconvertible_response 401) = false /\
  taxonomy (Response.status (unconvertible_response 401)) = AUTHENTICATION /\
  handleResponse (unconvertible_response 401) = Throw conversionError /\
  exists e : RelayError,
    (request plain_client (always (Responded (unconvertible_response 401)))
       "/workflows" RequestOptions.empty).2
    = Throw (ThrownRelay e) /\
    kind e = NETWORK /\
    status e = None /\
    code e = JStr "NETWORK_ERROR" /\
    message e = "Network request failed. Please check your connection.".
Proof.
  split; [reflexivity |]. split; [reflexivity |]. split; [reflexivity |].
  eexists. split; [reflexivity |]. by repeat split.
Qed.

(** ** Messages of classified errors *)

(** C2, as stated, fails: a 401 response whose body is the empty object
    supplies neither [message] nor [error], and the classified error's
    message is the fallback of [createErrorFromResponse], not the fixed
    default of the AUTHENTICATION kind. *)
Lemma fixed_default_message_counterexample :
  let response :=
    {| Response.status := 401;
       Response.content_type := Some "application/json";
       Response.json := Some emptyObject;
       Response.text := None |} in
  optGet (parseBody response) "message" = JUndefined /\
  optGet (parseBody response) "error" = JUndefined /\
  exists e : RelayError,
    handleResponse response = Throw (ThrownRelay e) /\
    kind e = AUTHENTICATION /\
    message e = "An error occurred" /\
    message e <> "Authentication failed".
Proof.
  cbv zeta. split; [reflexivity |]. split; [reflexivity |].
  eexists. split; [reflexivity |]. split; [reflexivity |].
  split; [reflexivity | discriminate].
Qed.

(** C2, amended. Whatever the failing status, when the parsed body
    supplies no (truthy) [message] and no (truthy) [error], the classified
    error's message is "An error occurred"; when it supplies one that can
    be converted to a string, the message is that string.
    [createErrorFromResponse] never hands [undefined] to a constructor as
    the message, so the default parameters of the constructors, which
    hold the fixed defaults of the table, do not come into play. *)
Theorem missing_message_fallback (st : Z) (data d : JValue) :
  (truthy (optGet data "message") = false ->
   truthy (optGet data "error") = false ->
   exists e : RelayError,
     createErrorFromResponse st data = Normal e /\
     message e = "An error occurred") /\
  (forall text : string,
     truthy (suppliedMessage data) = true ->
     ToString (suppliedMessage data) = Some text ->
     exists e : RelayError,
       createErrorFromResponse st data = Normal e /\ message e = text) /\
  classifiedMessage data <> JUndefined /\
  (exists e, new_AuthenticationError JUndefined d = Normal e /\
             message e = "Authentication failed") /\
  (exists e, new_AuthorizationError JUndefined d = Normal e /\
             message e = "Insufficient permissions") /\
  (exists e, new_NotFoundError JUndefined d = Normal e /\
             message e = "Resource not found") /\
  (exists e, new_ValidationError JUndefined d = Normal e /\
             message e = "Validation failed") /\
  (exists e, new_RateLimitError JUndefined JUndefined d = Normal e /\
             message e = "Rate limit exceeded") /\
  (exists e, new_ServerError JUndefined None d = Normal e /\
             message e = "Internal server error").
Proof.
  split; [| split; [| split]].
  - intros Hm He. apply createErrorFromResponse_converts.
    unfold classifiedMessage, suppliedMessage, or_else. by rewrite Hm, He.
  - intros text Hs Hconv. apply createErrorFromResponse_converts.
    unfold classifiedMessage, or_else. by rewrite Hs.
  - apply truthy_defined, classifiedMessage_truthy.
  - repeat split; eexists; by split.
Qed.

Lemma missing_message_fallback_witness :
  exists e : RelayError,
    createErrorFromResponse 503 (JObj [("code", JStr "E_DOWN")]) = Normal e /\
    message e = "An error occurred".
Proof.
  exact (proj1 (missing_message_fallback 503 (JObj [("code", JStr "E_DOWN")]) JUndefined)
           eq_refl eq_refl).
Defined.

(** ** The status of a VALIDATION error *)

(** C10. The code departs from the claim at a 422 response whose body
    holds a message that cannot be converted to a string: the
    constructor of the VALIDATION error throws a [TypeError] before any
    status is set, and the caller receives a NETWORK error whose status
    is [undefined], not 400.  (A 422 response whose message can be
    converted does yield status 400.) *)
Theorem unconvertible_message_loses_status :
  Response.status (unconvertible_response 422) = 422%Z /\
  createErrorFromResponse 422 (parseBody (unconvertible_response 422))
  = Throw conversionError /\
  (exists e : RelayError,
     (request plain_client (always (Responded (unconvertible_response 422)))
        "/workflows" RequestOptions.empty).2
     = Throw (ThrownRelay e) /\
     kind e = NETWORK /\
     status e = None /\
     status e <> Some 400%Z) /\
  (exists e : RelayError,
     handleResponse (text_response 422 "bad field") = Throw (ThrownRelay e) /\
     kind e = VALIDATION /\
     status e = Some 400%Z).
Proof.
  split; [reflexivity |]. split; [reflexivity |]. split.
  - eexists. split; [reflexivity |]. by repeat split.
  - eexists. by repeat split.
Qed.

(** ** Failures that are not responses *)

Lemma is_failed_to_fetch_spec msg :
  is_failed_to_fetch msg = true <-> msg = JStr "Failed to fetch".
Proof.
  destruct msg; cbn; try (split; [discriminate | intros [=]]).
  rewrite String.eqb_eq. split; [by intros -> | by intros [= ->]].
Qed.

Lemma get_message_defined v :
  v <> JNull -> v <> JUndefined -> get_message v = Normal (optGet v "message").
Proof. by destruct v. Qed.

(** The failures on which [handleError] itself throws: [null] and
    [undefined], whose [message] cannot be read, and a failure whose
    message is truthy and cannot be converted to a string. *)
Lemma handleError_throws :
  (forall (isTypeError : bool) (v : JValue),
     v = JNull \/ v = JUndefined ->
     exists msg : string,
       handleError (ThrownValue isTypeError v) = Throw (new_TypeError msg)) /\
  (forall v : JValue,
     v <> JNull -> v <> JUndefined ->
     truthy (optGet v "message") = true ->
     ToString (optGet v "message") = None ->
     handleError (ThrownValue false v) = Throw conversionError).
Proof.
  split.
  - intros isTE v [-> | ->]; eexists; reflexivity.
  - intros v Hnull Hundef Htruthy Hconv. unfold handleError.
    rewrite (get_message_defined v Hnull Hundef).
    assert (is_failed_to_fetch (optGet v "message") = false) as ->.
    { destruct (is_failed_to_fetch (optGet v "message")) eqn:E; [| reflexivity].
      apply is_failed_to_fetch_spec in E. by rewrite E in Hconv. }
    cbn [orb].
    assert (Hdef : or_else (optGet v "message") (JStr "An unknown error occurred")
                   <> JUndefined).
    { apply truthy_defined. unfold or_else. by rewrite Htruthy. }
    rewrite (new_RelayError_defined _ _ _ _ Hdef).
    unfold or_else. by rewrite Htruthy, Hconv.
Qed.

(** C3, as stated, fails: a failure that is neither a [RelayError] nor a
    [TypeError], and whose message is not "Failed to fetch", reaches the
    caller as a GENERIC error with code UNKNOWN_ERROR and the original
    message, not as a NETWORK error.  Both a rejection of [fetch] with
    such an error and a response hook that throws one show it. *)
Lemma unknown_failure_counterexample :
  (exists e : RelayError,
     (request plain_client (always (FetchRejected (new_Error "socket hang up")))
        "/workflows" RequestOptions.empty).2
     = Throw (ThrownRelay e) /\
     kind e = GENERIC /\
     kind e <> NETWORK /\
     code e = JStr "UNKNOWN_ERROR" /\
     message e = "socket hang up" /\
     message e <> "Network request failed. Please check your connection.") /\
  (exists e : RelayError,
     (request
        (hooked_client None (Some (fun _ => Throw (new_Error "audit log full"))) None)
        (always (Responded response_200_malformed))
        "/workflows" RequestOptions.empty).2
     = Throw (ThrownRelay e) /\
     kind e = GENERIC /\
     code e = JStr "UNKNOWN_ERROR" /\
     message e = "audit log full").
Proof.
  split.
  - eexists. split; [reflexivity |].
    split; [reflexivity |]. split; [discriminate |].
    split; [reflexivity |]. split; [reflexivity | discriminate].
  - eexists. by repeat split.
Qed.

(** C3, amended. [handleError] passes an already classified error on
    unchanged.  A failure that is not classified and is neither [null]
    nor [undefined] becomes a NETWORK error with message "Network request
    failed. Please check your connection." when it is a [TypeError] or
    its message is "Failed to fetch"; any other such failure whose
    message is falsy or can be converted to a string becomes a GENERIC
    error with code UNKNOWN_ERROR, carrying the original message as a
    string, or "An unknown error occurred" when the message is falsy. *)
Theorem handleError_classification :
  (forall e : RelayError, handleError (ThrownRelay e) = Normal e) /\
  (forall (isTypeError : bool) (v : JValue),
     v <> JNull -> v <> JUndefined ->
     isTypeError = true \/ optGet v "message" = JStr "Failed to fetch" ->
     exists e : RelayError,
       handleError (ThrownValue isTypeError v) = Normal e /\
       kind e = NETWORK /\
       message e = "Network request failed. Please check your connection." /\
       code e = JStr "NETWORK_ERROR" /\
       status e = None /\
       details e = JObj [("originalError", optGet v "message")]) /\
  (forall (v : JValue) (text : string),
     v <> JNull -> v <> JUndefined ->
     optGet v "message" <> JStr "Failed to fetch" ->
     (if truthy (optGet v "message") then ToString (optGet v "message")
      else Some "An unknown error occurred")
     = Some text ->
     exists e : RelayError,
       handleError (ThrownValue false v) = Normal e /\
       kind e = GENERIC /\
       code e = JStr "UNKNOWN_ERROR" /\
       status e = None /\
       message e = text /\
       details e = JObj [("originalError", v)]).
Proof.
  pose proof get_message_defined as Hget.
  split; [reflexivity | split].
  - intros isTE v Hnull Hundef Hnet. unfold handleError.
    rewrite (Hget v Hnull Hundef).
    assert (isTE || is_failed_to_fetch (optGet v "message") = true) as ->.
    { destruct Hnet as [-> | Hmsg]; [reflexivity |].
      apply orb_true_iff. right. by apply is_failed_to_fetch_spec. }
    eexists. by repeat split.
  - intros v text Hnull Hundef Hmsg Hconv. unfold handleError.
    rewrite (Hget v Hnull Hundef).
    assert (is_failed_to_fetch (optGet v "message") = false) as ->.
    { destruct (is_failed_to_fetch (optGet v "message")) eqn:E; [| reflexivity].
      by apply is_failed_to_fetch_spec in E. }
    cbn [orb].
    assert (Hm : ToString (or_else (optGet v "message")
                             (JStr "An unknown error occurred"))
                 = Some text).
    { unfold or_else. by destruct (truthy (optGet v "message")). }
    assert (Hdef : or_else (optGet v "message") (JStr "An unknown error occurred")
                   <> JUndefined).
    { apply truthy_defined. unfold or_else.
      by destruct (truthy (optGet v "message")) eqn:E. }
    rewrite (new_RelayError_defined _ _ _ _ Hdef), Hm.
    eexists. by repeat split.
Qed.

Lemma handleError_classification_witness :
  exists e : RelayError,
    handleError (new_TypeError "fetch failed") = Normal e /\
    kind e = NETWORK /\
    details e = JObj [("originalError", JStr "fetch failed")].
Proof.
  assert (Hnull : JObj [("message", JStr "fetch failed")] <> JNull)
    by discriminate.
  assert (Hundef : JObj [("message", JStr "fetch failed")] <> JUndefined)
    by discriminate.
  destruct (proj1 (proj2 handleError_classification) true
              (JObj [("message", JStr "fetch failed")])
              Hnull Hundef (or_introl eq_refl))
    as (e & He & Hk & _ & _ & _ & Hd).
  exists e. split; [exact He |]. split; [exact Hk | exact Hd].
Defined.

(** ** The error hook *)

Lemma runHook_trace {A} (hook : Hook A) (ev : Event) (arg : A) :
  (runHook hook ev arg).1 = [] \/ (runHook hook ev arg).1 = [ev].
Proof. destruct hook; cbn; auto. Qed.

Lemma attempt_trace this net url init t :
  forall e, CallOnError e ∉ (attempt this net url init t).1.
Proof.
  intros e. unfold attempt, runHook, call, lift, bind.
  destruct (net url init t) as [response | reason |]; cbn;
    [destruct (onResponse this) as [h |]; cbn;
     [destruct (h response); cbn |] |..];
    repeat (rewrite ?not_elem_of_cons, ?not_elem_of_app; split; try done);
    apply not_elem_of_nil.
Qed.

(** [request] once the URL is built. *)
Lemma request_with_url this net path options url :
  requestURL this path options = Normal url ->
  request this net path options =
  bind (runHook (onRequest this) (CallOnRequest url (requestInit this options))
          (url, requestInit this options))
       (fun _ => try_catch
                   (attempt this net url (requestInit this options)
                      (default (timeout this) (RequestOptions.timeout options)))
                   (recover this)).
Proof.
  intros Hurl. unfold request. rewrite Hurl. cbn [lift bind].
  by destruct (bind _ _).
Qed.

(** [request] when building the URL throws. *)
Lemma request_without_url this net path options failure :
  requestURL this path options = Throw failure ->
  request this net path options = ([], Throw failure).
Proof. intros Hurl. unfold request. by rewrite Hurl. Qed.

(** C4, as stated, fails on two counts.  A failure of the request hook,
    which runs before the guarded part of [request], reaches the caller
    as it was thrown: it is not classified and the configured error hook
    is not called.  And an error hook that fails replaces the classified
    error the caller would have received by its own failure. *)
Lemma error_hook_counterexample :
  (let this :=
     hooked_client (Some (fun _ => Throw (new_Error "request hook failed")))
       None (Some (fun _ => Normal tt)) in
   exists tr : list Event,
     request this (always TimerFired) "/workflows" RequestOptions.empty
     = (tr, Throw (new_Error "request hook failed")) /\
     forall e, CallOnError e ∉ tr) /\
  (let this :=
     hooked_client None None
       (Some (fun _ => Throw (new_Error "error hook failed"))) in
   (request this (always (Responded response_404)) "/workflows/1"
      RequestOptions.empty).2
   = Throw (new_Error "error hook failed")).
Proof.
  split; cbv zeta.
  - eexists. split; [reflexivity |].
    intros e He. apply list_elem_of_singleton in He. discriminate.
  - reflexivity.
Qed.

(** C4, amended. Let an error hook be configured.  When the request hook
    fails, its failure reaches the caller as thrown and the error hook is
    not called.  When the guarded part of [request] (the network race,
    the response hook, the handling of the response) fails and
    [handleError] classifies the failure, the error hook is called
    exactly once, after every other call, with the classified error; if
    the hook completes normally the caller receives that classified
    error, whatever the hook returned, and if the hook fails the caller
    receives the hook's failure. *)
Theorem error_hook_contract (this : HTTPClient) (net : Network)
    (path : string) (options : RequestOptions.t)
    (hook : RelayError -> Completion unit) (pre : list Event) (url : string) :
  onError this = Some hook ->
  requestURL this path options = Normal url ->
  let init := requestInit this options in
  let t := default (timeout this) (RequestOptions.timeout options) in
  (forall reason : Thrown,
     runHook (onRequest this) (CallOnRequest url init) (url, init)
     = (pre, Throw reason) ->
     request this net path options = (pre, Throw reason) /\
     forall e, CallOnError e ∉ pre) /\
  (forall (tr : list Event) (reason : Thrown) (relayError : RelayError),
     runHook (onRequest this) (CallOnRequest url init) (url, init)
     = (pre, Normal tt) ->
     attempt this net url init t = (tr, Throw reason) ->
     handleError reason = Normal relayError ->
     request this net path options
     = ((pre ++ tr ++ [CallOnError relayError])%list,
        match hook relayError with
        | Normal _ => Throw (ThrownRelay relayError)
        | Throw failure => Throw failure
        end) /\
     forall e, CallOnError e ∉ (pre ++ tr)%list).
Proof.
  intros Hhook Hurl init t.
  assert (Hpre : forall c, runHook (onRequest this) (CallOnRequest url init)
                             (url, init) = (pre, c) ->
                           forall e, CallOnError e ∉ pre).
  { intros c Hrun e.
    destruct (runHook_trace (onRequest this) (CallOnRequest url init) (url, init))
      as [H | H]; rewrite Hrun in H; cbn in H; subst pre.
    - apply not_elem_of_nil.
    - intros He. apply list_elem_of_singleton in He. discriminate. }
  split.
  - intros reason Hrun. split; [| by eapply Hpre].
    rewrite (request_with_url _ _ _ _ _ Hurl). fold init. by rewrite Hrun.
  - intros tr reason relayError Hrun Hatt Herr. split.
    + rewrite (request_with_url _ _ _ _ _ Hurl). fold init t.
      rewrite Hrun. cbn [bind].
      rewrite Hatt. cbn [try_catch]. unfold recover. rewrite Herr.
      unfold runHook. rewrite Hhook. cbn.
      by destruct (hook relayError).
    + intros e. apply not_elem_of_app. split; [by eapply Hpre |].
      pose proof (attempt_trace this net url init t e) as Hno.
      by rewrite Hatt in Hno.
Qed.

Lemma error_hook_contract_witness :
  exists e : RelayError,
    createErrorFromResponse 404 (parseBody response_404) = Normal e /\
    request (hooked_client None None (Some (fun _ => Normal tt)))
      (always (Responded response_404)) "/workflows/1" RequestOptions.empty
    = ([CallFetch "https://api.relay.com/workflows/1"
          (requestInit (hooked_client None None (Some (fun _ => Normal tt)))
             RequestOptions.empty) 5000;
        CallOnError e],
       Throw (ThrownRelay e)).
Proof.
  eexists. split; [reflexivity |].
  exact (proj1
    (proj2 (error_hook_contract
              (hooked_client None None (Some (fun _ => Normal tt)))
              (always (Responded response_404)) "/workflows/1"
              RequestOptions.empty (fun _ => Normal tt) []
              "https://api.relay.com/workflows/1" eq_refl eq_refl)
       _ _ _ eq_refl eq_refl eq_refl)).
Defined.

(** ** Successful responses *)

Lemma runHook_completes {A} (hook : Hook A) (ev : Event) (arg : A) :
  completes hook arg ->
  runHook hook ev arg = (match hook with Some _ => [ev] | None => [] end, Normal tt).
Proof. destruct hook; cbn; [by intros -> | done]. Qed.

(** C5, as stated, fails: the response hook runs before the response is
    handled, and when it fails on a 2xx response the call ends with a
    classified error instead of the parsed body. *)
Lemma response_hook_failure_counterexample :
  let this :=
    hooked_client None (Some (fun _ => Throw (new_Error "audit log full"))) None in
  let response :=
    {| Response.status := 200;
       Response.content_type := Some "application/json";
       Response.json := Some (JObj [("id", JStr "wf-1")]);
       Response.text := None |} in
  Response.ok response = true /\
  parseBody response = JObj [("id", JStr "wf-1")] /\
  exists e : RelayError,
    (request this (always (Responded response)) "/workflows/wf-1"
       RequestOptions.empty).2
    = Throw (ThrownRelay e) /\
    kind e = GENERIC /\
    code e = JStr "UNKNOWN_ERROR" /\
    message e = "audit log full".
Proof.
  cbv zeta. split; [reflexivity |]. split; [reflexivity |].
  eexists. by repeat split.
Qed.

(** C5, amended. When the request hook and the response hook are absent
    or complete normally and the exchange settles with a 2xx response,
    [request] returns the parsed body as it is and the error hook is not
    called.  The parsed body is the value of [json()] for a JSON content
    type and [{ message: text }] for a non-empty text; it is the empty
    object when [json()] fails (malformed or empty JSON), when the text
    is empty, and when the text cannot be read. *)
Theorem success_returns_parsed_body (this : HTTPClient) (net : Network)
    (path : string) (options : RequestOptions.t) (response : Response.t)
    (url : string) :
  requestURL this path options = Normal url ->
  let init := requestInit this options in
  let t := default (timeout this) (RequestOptions.timeout options) in
  completes (onRequest this) (url, init) ->
  net url init t = Responded response ->
  completes (onResponse this) response ->
  Response.ok response = true ->
  (request this net path options).2 = Normal (parseBody response) /\
  (forall e, CallOnError e ∉ (request this net path options).1) /\
  handleResponse response = Normal (parseBody response) /\
  (forall data, isJSON response = true -> Response.json response = Some data ->
                parseBody response = data) /\
  (isJSON response = true -> Response.json response = None ->
   parseBody response = emptyObject) /\
  (forall text, isJSON response = false ->
                Response.text response = Some text -> text <> EmptyString ->
                parseBody response = JObj [("message", JStr text)]) /\
  (isJSON response = false ->
   Response.text response = Some EmptyString \/ Response.text response = None ->
   parseBody response = emptyObject).
Proof.
  intros Hurl init t Hreq Hnet Hresp Hok.
  assert (Hhandle : handleResponse response = Normal (parseBody response)).
  { unfold handleResponse. by rewrite Hok. }
  assert (Hrun : request this net path options =
                 ((match onRequest this with
                   | Some _ => [CallOnRequest url init] | None => [] end)
                  ++ [CallFetch url init t]
                  ++ (match onResponse this with
                      | Some _ => [CallOnResponse response] | None => [] end),
                  Normal (parseBody response))%list).
  { rewrite (request_with_url _ _ _ _ _ Hurl). fold init t.
    rewrite (runHook_completes _ _ _ Hreq). cbn [bind].
    unfold attempt. rewrite Hnet. cbn [bind call].
    rewrite (runHook_completes _ _ _ Hresp). rewrite Hhandle.
    cbn. by rewrite app_nil_r. }
  split; [by rewrite Hrun |]. split; [| split; [exact Hhandle |]].
  - intros e. rewrite Hrun. cbn [fst].
    rewrite !not_elem_of_app.
    repeat split; repeat case_match;
      rewrite ?not_elem_of_cons; repeat split; try done; apply not_elem_of_nil.
  - unfold parseBody. repeat split.
    + by intros data -> ->.
    + by intros -> ->.
    + intros text -> -> Htext. by destruct text.
    + by intros -> [-> | ->].
Qed.

Lemma success_returns_parsed_body_witness :
  (request plain_client (always (Responded response_200_malformed))
     "/workflows" RequestOptions.empty).2
  = Normal emptyObject.
Proof.
  exact (proj1 (success_returns_parsed_body plain_client
                  (always (Responded response_200_malformed))
                  "/workflows" RequestOptions.empty response_200_malformed
                  "https://api.relay.com/workflows" eq_refl
                  I eq_refl I eq_refl)).
Defined.

(** ** Headers *)

Lemma requestInit_headers this options :
  RequestInit.headers (requestInit this options) =
  <["Authorization" := "Bearer " +:+ apiKey this]>
    (spread (defaultHeaders this) (default ∅ (RequestOptions.headers options))).
Proof. unfold requestInit. by case_match. Qed.

Lemma lookup_spread (a b : gmap string string) (k : string) :
  spread a b !! k = match b !! k with Some v => Some v | None => a !! k end.
Proof. unfold spread. rewrite lookup_union. by destruct (b !! k), (a !! k). Qed.

Lemma elem_of_bind {A B} (m : Eff A) (k : A -> Eff B) (ev : Event) :
  ev ∈ (bind m k).1 -> ev ∈ m.1 \/ exists a, ev ∈ (k a).1.
Proof.
  destruct m as [tr [a | t]]; cbn; [| by left].
  destruct (k a) as [tr' r] eqn:E. cbn. rewrite elem_of_app.
  intros [H | H]; [by left | right]. exists a. by rewrite E.
Qed.

Lemma elem_of_try_catch {A} (m : Eff A) (handler : Thrown -> Eff A) (ev : Event) :
  ev ∈ (try_catch m handler).1 -> ev ∈ m.1 \/ exists t, ev ∈ (handler t).1.
Proof.
  destruct m as [tr [a | t]]; cbn; [by left |].
  destruct (handler t) as [tr' r] eqn:E. cbn. rewrite elem_of_app.
  intros [H | H]; [by left | right]. exists t. by rewrite E.
Qed.

Lemma elem_of_runHook {A} (hook : Hook A) (ev0 : Event) (arg : A) (ev : Event) :
  ev ∈ (runHook hook ev0 arg).1 -> ev = ev0.
Proof.
  destruct hook; cbn; [by intros ?%list_elem_of_singleton |].
  by intros ?%elem_of_nil.
Qed.

(** The calls [request] can make. *)
Lemma request_trace this net path options ev :
  ev ∈ (request this net path options).1 ->
  (exists url, requestURL this path options = Normal url /\
     (ev = CallOnRequest url (requestInit this options) \/
      ev = CallFetch url (requestInit this options)
             (default (timeout this) (RequestOptions.timeout options)))) \/
  (exists r, ev = CallOnResponse r) \/
  (exists e, ev = CallOnError e).
Proof.
  destruct (requestURL this path options) as [url | failure] eqn:Hurl;
    [rewrite (request_with_url _ _ _ _ _ Hurl)
    | rewrite (request_without_url _ _ _ _ _ Hurl);
      by intros ?%elem_of_nil].
  intros [H | [_ H]]%elem_of_bind;
    [left; exists url; split; [done |]; left; by apply elem_of_runHook in H |].
  apply elem_of_try_catch in H as [H | [t H]].
  - unfold attempt in H. apply elem_of_bind in H as [H | [r H]].
    + left. exists url. split; [done |]. right.
      by apply list_elem_of_singleton in H.
    + right; left. apply elem_of_bind in H as [H | [_ H]].
      * exists r. by apply elem_of_runHook in H.
      * by apply elem_of_nil in H.
  - right; right. unfold recover in H.
    apply elem_of_bind in H as [H | [e H]]; [by apply elem_of_nil in H |].
    apply elem_of_bind in H as [H | [_ H]]; [| by apply elem_of_nil in H].
    exists e. by apply elem_of_runHook in H.
Qed.

(** C6. The headers of every request are the client's default headers
    overridden by the per-call headers, with [Authorization] set to
    "Bearer <token>" whatever the configured and per-call headers hold;
    the default headers are the fixed set overridden by the configured
    headers; and these are the headers handed to the request hook and to
    [fetch]. *)
Theorem authorization_injected_last (config : HTTPClientConfig.t)
    (options : RequestOptions.t) (net : Network) (path : string) :
  let this := new_HTTPClient config in
  let sent := RequestInit.headers (requestInit this options) in
  let perCall := default ∅ (RequestOptions.headers options) in
  let configured := default ∅ (HTTPClientConfig.headers config) in
  sent !! "Authorization" = Some ("Bearer " +:+ HTTPClientConfig.apiKey config) /\
  (forall k, k <> "Authorization" ->
     sent !! k = match perCall !! k with
                 | Some v => Some v
                 | None => defaultHeaders this !! k
                 end) /\
  (forall k, defaultHeaders this !! k =
             match configured !! k with
             | Some v => Some v
             | None => fixedHeaders k
             end) /\
  (forall ev, ev ∈ (request this net path options).1 ->
     match ev with
     | CallOnRequest _ i | CallFetch _ i _ => RequestInit.headers i = sent
     | _ => True
     end).
Proof.
  intros this sent perCall configured. subst sent.
  rewrite requestInit_headers. repeat split.
  - apply lookup_insert_eq.
  - intros k Hk. rewrite lookup_insert_ne by done. apply lookup_spread.
  - intros k. unfold this, new_HTTPClient; cbn [defaultHeaders].
    rewrite lookup_spread. fold configured.
    destruct (configured !! k); [reflexivity |].
    unfold fixedHeaders. repeat case_decide; subst; try reflexivity.
    rewrite lookup_insert_ne, lookup_singleton_ne by done. reflexivity.
  - intros ev Hev. apply request_trace in Hev.
    destruct Hev as [[url [_ [-> | ->]]] | [[r ->] | [e ->]]];
      try done; apply requestInit_headers.
Qed.

Lemma authorization_injected_last_witness :
  RequestInit.headers (requestInit (new_HTTPClient plain_config) overriding_options)
    !! "Authorization"
  = Some "Bearer relay_test_key".
Proof.
  exact (proj1 (authorization_injected_last plain_config overriding_options
                  (always TimerFired) "/workflows")).
Defined.

(** ** Query strings *)

Lemma append_assoc (a b c : string) : (a +:+ b) +:+ c = a +:+ (b +:+ c).
Proof.
  induction a as [| x a IH]; [reflexivity |].
  change (String x ((a +:+ b) +:+ c) = String x (a +:+ (b +:+ c))).
  by rewrite IH.
Qed.

Lemma string_forall_app P (a b : string) :
  string_forall P (a +:+ b) = string_forall P a && string_forall P b.
Proof.
  induction a as [| x a IH]; [reflexivity |].
  change (P x && string_forall P (a +:+ b)
          = P x && string_forall P a && string_forall P b).
  rewrite IH. by destruct (P x).
Qed.

Lemma encode_byte_query_bytes c :
  string_forall is_query_byte (URLSearchParams.encode_byte c) = true.
Proof. destruct c as [[] [] [] [] [] [] [] []]; reflexivity. Qed.

Lemma encode_query_bytes s :
  string_forall is_query_byte (URLSearchParams.encode s) = true.
Proof.
  induction s as [| c s IH]; [reflexivity |].
  change (string_forall is_query_byte
            (URLSearchParams.encode_byte c +:+ URLSearchParams.encode s) = true).
  by rewrite string_forall_app, encode_byte_query_bytes, IH.
Qed.

Lemma encode_pair_query_bytes p :
  string_forall is_query_byte (URLSearchParams.encode_pair p) = true.
Proof.
  unfold URLSearchParams.encode_pair.
  by rewrite !string_forall_app, !encode_query_bytes.
Qed.

Lemma ampersand_empty_r a : ampersand a EmptyString = a.
Proof. unfold ampersand. by destruct a. Qed.

Lemma ampersand_nonempty a b :
  a <> EmptyString -> b <> EmptyString -> ampersand a b = a +:+ "&" +:+ b.
Proof. unfold ampersand. by destruct a, b. Qed.

Lemma append_nonempty_l a b : a <> EmptyString -> a +:+ b <> EmptyString.
Proof. by destruct a. Qed.

Lemma encode_pair_nonempty p : URLSearchParams.encode_pair p <> EmptyString.
Proof.
  unfold URLSearchParams.encode_pair.
  by destruct (URLSearchParams.encode p.1).
Qed.

Lemma toString_cons p l :
  URLSearchParams.toString (p :: l) =
  ampersand (URLSearchParams.encode_pair p) (URLSearchParams.toString l).
Proof.
  destruct l as [| q l].
  - by rewrite ampersand_empty_r.
  - rewrite ampersand_nonempty; [reflexivity | apply encode_pair_nonempty |].
    unfold URLSearchParams.toString. cbn [map join].
    destruct (map _ l); [apply encode_pair_nonempty |].
    apply append_nonempty_l, encode_pair_nonempty.
Qed.

Lemma ampersand_assoc a b c :
  ampersand (ampersand a b) c = ampersand a (ampersand b c).
Proof.
  destruct (decide (a = EmptyString)) as [-> | Ha]; [reflexivity |].
  destruct (decide (b = EmptyString)) as [-> | Hb];
    [by rewrite ampersand_empty_r |].
  destruct (decide (c = EmptyString)) as [-> | Hc];
    [by rewrite !ampersand_empty_r |].
  rewrite (ampersand_nonempty a b), (ampersand_nonempty b c) by done.
  rewrite !ampersand_nonempty by (done || by apply append_nonempty_l).
  by rewrite append_assoc.
Qed.

Lemma toString_app l1 l2 :
  URLSearchParams.toString (l1 ++ l2) =
  ampersand (URLSearchParams.toString l1) (URLSearchParams.toString l2).
Proof.
  induction l1 as [| p l1 IH]; [reflexivity |].
  change ((p :: l1) ++ l2)%list with (p :: (l1 ++ l2))%list.
  by rewrite !toString_cons, IH, ampersand_assoc.
Qed.

Lemma ampersand_query_bytes a b :
  string_forall is_query_byte a = true ->
  string_forall is_query_byte b = true ->
  string_forall is_query_byte (ampersand a b) = true.
Proof.
  intros Ha Hb. unfold ampersand. repeat case_match; try done.
  by rewrite !string_forall_app, Ha, Hb.
Qed.

Lemma toString_query_bytes l :
  string_forall is_query_byte (URLSearchParams.toString l) = true.
Proof.
  induction l as [| p l IH]; [reflexivity |].
  rewrite toString_cons.
  apply ampersand_query_bytes; [apply encode_pair_query_bytes | exact IH].
Qed.

Lemma forEach_normal {A B} (f : A -> Completion B) (l : list A) (ys : list B) :
  forEach f l = Normal ys <-> Forall2 (fun x y => f x = Normal y) l ys.
Proof.
  revert ys. induction l as [| x l IH]; intros ys; cbn.
  - split; [intros [= <-]; constructor | by intros ->%Forall2_nil_inv_l].
  - destruct (f x) as [y | t] eqn:Hx; cbn.
    + destruct (forEach f l) as [ys' | t] eqn:Hl; cbn.
      * split.
        -- intros [= <-]. constructor; [done | by apply IH].
        -- intros (y' & ys'' & Hy & Hys & ->)%Forall2_cons_inv_l.
           apply IH in Hys. congruence.
      * split; [done |].
        intros (y' & ys'' & Hy & Hys & ->)%Forall2_cons_inv_l.
        by apply IH in Hys.
    + split; [done |].
      intros (y' & ys'' & Hy & _)%Forall2_cons_inv_l. congruence.
Qed.

Lemma forEach_app {A B} (f : A -> Completion B) (l1 l2 : list A) :
  forEach f (l1 ++ l2) =
  (returned ys1 <- forEach f l1;
   returned ys2 <- forEach f l2;
   Normal (ys1 ++ ys2)%list).
Proof.
  induction l1 as [| x l1 IH]; cbn.
  - by destruct (forEach f l2).
  - destruct (f x); cbn; [| done]. rewrite IH.
    destruct (forEach f l1); cbn; [| done]. by destruct (forEach f l2).
Qed.

Lemma buildQueryString_app p1 p2 :
  buildQueryString (p1 ++ p2) =
  (returned q1 <- buildQueryString p1;
   returned q2 <- buildQueryString p2;
   Normal (ampersand q1 q2)).
Proof.
  unfold buildQueryString. rewrite forEach_app.
  destruct (forEach entryPairs p1); cbn; [| done].
  destruct (forEach entryPairs p2); cbn; [| done].
  by rewrite concat_app, toString_app.
Qed.

Lemma buildQueryString_normal params q :
  buildQueryString params = Normal q <->
  exists appended,
    forEach entryPairs params = Normal appended /\
    q = URLSearchParams.toString (concat appended).
Proof.
  unfold buildQueryString.
  destruct (forEach entryPairs params) as [appended | t]; cbn.
  - split; [intros [= <-]; by exists appended | by intros (? & [= <-] & ->)].
  - split; [done | by intros (? & ? & _)].
Qed.

(** Reading a serialized query back. *)

Lemma percent_decode_encode_byte c (t : string) :
  percent_decode (URLSearchParams.encode_byte c +:+ t) = String c (percent_decode t).
Proof. destruct c as [[] [] [] [] [] [] [] []]; reflexivity. Qed.

Lemma percent_decode_encode (s : string) :
  percent_decode (URLSearchParams.encode s) = s.
Proof.
  induction s as [| c s IH]; [reflexivity |].
  change (percent_decode
            (URLSearchParams.encode_byte c +:+ URLSearchParams.encode s)
          = String c s).
  by rewrite percent_decode_encode_byte, IH.
Qed.

Lemma string_forall_impl (P Q : ascii -> bool) (s : string) :
  (forall c, P c = true -> Q c = true) ->
  string_forall P s = true -> string_forall Q s = true.
Proof.
  intros HPQ. induction s as [| c s IH]; [done |]. cbn.
  intros [Hc Hs]%andb_true_iff. by rewrite (HPQ c Hc), (IH Hs).
Qed.

Lemma encode_byte_value_bytes c :
  string_forall is_value_byte (URLSearchParams.encode_byte c) = true.
Proof. destruct c as [[] [] [] [] [] [] [] []]; reflexivity. Qed.

Lemma encode_value_bytes s :
  string_forall is_value_byte (URLSearchParams.encode s) = true.
Proof.
  induction s as [| c s IH]; [reflexivity |].
  change (string_forall is_value_byte
            (URLSearchParams.encode_byte c +:+ URLSearchParams.encode s) = true).
  by rewrite string_forall_app, encode_byte_value_bytes, IH.
Qed.

Lemma encode_other_than sep s :
  is_value_byte sep = false ->
  string_forall (other_than sep) (URLSearchParams.encode s) = true.
Proof.
  intros Hsep. apply (string_forall_impl is_value_byte); [| apply encode_value_bytes].
  intros c Hc. unfold other_than.
  destruct (Ascii.eqb_spec c sep) as [-> | _]; [congruence | reflexivity].
Qed.

Lemma split_on_other_than sep (a : string) :
  string_forall (other_than sep) a = true -> split_on sep a = [a].
Proof.
  induction a as [| c a IH]; [reflexivity |]. cbn.
  intros [Hc Ha]%andb_true_iff. unfold other_than in Hc.
  destruct (Ascii.eqb c sep); [done |]. by rewrite (IH Ha).
Qed.

Lemma split_on_app sep (a b : string) :
  string_forall (other_than sep) a = true ->
  split_on sep (a +:+ String sep b) = a :: split_on sep b.
Proof.
  induction a as [| c a IH].
  - intros _. change (split_on sep (String sep b) = EmptyString :: split_on sep b).
    cbn. by rewrite Ascii.eqb_refl.
  - change (String c a +:+ String sep b) with (String c (a +:+ String sep b)).
    cbn. intros [Hc Ha]%andb_true_iff. unfold other_than in Hc.
    destruct (Ascii.eqb c sep); [done |]. by rewrite (IH Ha).
Qed.

Lemma cut_app sep (a b : string) :
  string_forall (other_than sep) a = true ->
  cut sep (a +:+ String sep b) = (a, b).
Proof.
  induction a as [| c a IH].
  - intros _. change (cut sep (String sep b) = (EmptyString, b)).
    cbn. by rewrite Ascii.eqb_refl.
  - change (String c a +:+ String sep b) with (String c (a +:+ String sep b)).
    cbn. intros [Hc Ha]%andb_true_iff. unfold other_than in Hc.
    destruct (Ascii.eqb c sep); [done |]. by rewrite (IH Ha).
Qed.

Lemma split_on_join (l : list string) :
  l <> [] ->
  Forall (fun piece => string_forall (other_than "&") piece = true) l ->
  split_on "&" (join "&" l) = l.
Proof.
  induction l as [| x l IH]; [done |]. intros _ Hl.
  apply Forall_cons in Hl as [Hx Hl].
  destruct l as [| y l]; [by apply split_on_other_than |].
  change (split_on "&" (x +:+ String "&" (join "&" (y :: l))) = x :: y :: l).
  rewrite split_on_app by done. f_equal. by apply IH.
Qed.

Lemma encode_pair_other_than p :
  string_forall (other_than "&") (URLSearchParams.encode_pair p) = true.
Proof.
  unfold URLSearchParams.encode_pair.
  by rewrite !string_forall_app, !encode_other_than.
Qed.

Lemma parse_encode_pair p :
  (let '(name, value) := cut "=" (URLSearchParams.encode_pair p) in
   (percent_decode name, percent_decode value)) = p.
Proof.
  destruct p as [name value]. unfold URLSearchParams.encode_pair. cbn [fst snd].
  change ("=" +:+ URLSearchParams.encode value)
    with (String "=" (URLSearchParams.encode value)).
  rewrite cut_app by by apply encode_other_than.
  by rewrite !percent_decode_encode.
Qed.

(** A parser of [application/x-www-form-urlencoded] reads from the
    serialization of a list of pairs that list. *)
Lemma parse_query_toString (pairs : list (string * string)) :
  parse_query (URLSearchParams.toString pairs) = pairs.
Proof.
  destruct pairs as [| p pairs]; [reflexivity |].
  unfold parse_query, URLSearchParams.toString.
  rewrite split_on_join;
    [| done | apply Forall_map, Forall_forall; intros; apply encode_pair_other_than].
  generalize (p :: pairs). clear. intros pairs.
  induction pairs as [| p pairs IH]; [reflexivity |].
  cbn [map List.filter].
  destruct (String.eqb_spec (URLSearchParams.encode_pair p) EmptyString) as [H | _];
    [by apply encode_pair_nonempty in H |].
  cbn [negb map]. by rewrite parse_encode_pair, IH.
Qed.

(** C7, as stated, fails: the mapping may hold a value that [String]
    cannot convert, such as an object whose own [toString] property is
    not a function, as a value or as an element of an array; then
    [buildQueryString] throws a [TypeError] and yields no string, and so
    does [appendQueryParams]. *)
Lemma unconvertible_value_counterexample :
  buildQueryString [("page", JNum 1); ("filter", JObj [("toString", JNum 1)])]
  = Throw conversionError /\
  buildQueryString [("ids", JArr [JNum 1; JObj [("toString", JNull)]])]
  = Throw conversionError /\
  appendQueryParams "/api/workflows" [("filter", JObj [("toString", JNum 1)])]
  = Throw conversionError.
Proof. repeat split; reflexivity. Qed.

(** C7, amended. [buildQueryString] leaves out every key whose value is
    [null] or [undefined]; for an array whose elements [String] can
    convert it appends the key once per element, with the string of the
    element (in order); for any other value that [String] can convert it
    appends [key=value] once, with the string of the value: a string is
    itself, a boolean is [true] or [false], a number is printed as
    [Number::toString] prints it, an object without an own [toString] is
    [[object Object]], and [null] and [undefined] inside an array are
    [null] and [undefined].  The entries follow each other in order,
    separated by [&].  Names and values are percent-encoded: a space
    becomes [+] and the kept bytes stand for themselves, the output
    consists of the kept bytes and of [+], [%], [=], [&], it does not
    start with [?], and a parser of [application/x-www-form-urlencoded]
    reads from it the names and the strings that were appended. *)
Theorem buildQueryString_spec :
  (forall pre k v post,
     v = JUndefined \/ v = JNull ->
     buildQueryString (pre ++ (k, v) :: post) = buildQueryString (pre ++ post)) /\
  (forall k items texts,
     Forall2 (fun item text => ToString item = Some text) items texts ->
     buildQueryString [(k, JArr items)] =
     Normal (join "&" (map (fun text => URLSearchParams.encode k +:+ "=" +:+
                                        URLSearchParams.encode text) texts))) /\
  (forall k v text,
     v <> JUndefined -> v <> JNull -> isArray v = false ->
     ToString v = Some text ->
     buildQueryString [(k, v)] =
     Normal (URLSearchParams.encode k +:+ "=" +:+ URLSearchParams.encode text)) /\
  ((forall s, ToString (JStr s) = Some s) /\
   (forall b, ToString (JBool b) = Some (if b then "true" else "false")) /\
   (forall x, ToString (JNum x) = Some (Number.toString x)) /\
   (forall props, hasOwn "toString" props = false ->
                  ToString (JObj props) = Some "[object Object]") /\
   ToString JNull = Some "null" /\
   ToString JUndefined = Some "undefined") /\
  buildQueryString [] = Normal EmptyString /\
  (forall p1 p2,
     buildQueryString (p1 ++ p2) =
     (returned q1 <- buildQueryString p1;
      returned q2 <- buildQueryString p2;
      Normal (ampersand q1 q2))) /\
  (forall params q,
     buildQueryString params = Normal q ->
     string_forall is_query_byte q = true /\
     String.prefix "?" q = false /\
     exists appended,
       forEach entryPairs params = Normal appended /\
       parse_query q = concat appended) /\
  ((forall s, percent_decode (URLSearchParams.encode s) = s) /\
   (forall s, URLSearchParams.encode (String " " s)
              = String "+" (URLSearchParams.encode s)) /\
   (forall c s, URLSearchParams.is_kept c = true ->
                URLSearchParams.encode (String c s)
                = String c (URLSearchParams.encode s))) /\
  buildQueryString [("page", JNum 1); ("is_active", JBool true)]
  = Normal "page=1&is_active=true" /\
  buildQueryString [("tags", JArr [JStr "a"; JStr "b"])] = Normal "tags=a&tags=b" /\
  buildQueryString [("page", JNum 2); ("cursor", JUndefined); ("q", JNull)]
  = Normal "page=2" /\
  buildQueryString [("q", JStr "a b&c=d/e~"); ("ok", JBool false)]
  = Normal "q=a+b%26c%3Dd%2Fe%7E&ok=false" /\
  buildQueryString [("n", JNum 1000000000000000000000);
                    ("ratio", JNum (Number.Finite false 5 0));
                    ("low", JNum (Number.Finite true 25 (-7)));
                    ("none", JNum Number.NaN)]
  = Normal "n=1e%2B21&ratio=0.5&low=-2.5e-8&none=NaN" /\
  buildQueryString [("v", JArr [JNull; JUndefined; JObj [("a", JNum 1)];
                                JArr [JNum 1; JNull; JStr "x"]])]
  = Normal "v=null&v=undefined&v=%5Bobject+Object%5D&v=1%2C%2Cx".
Proof.
  split; [| split; [| split; [| split; [| split; [| split; [| split; [| split]]]]]]].
  - intros pre k v post Hv.
    change ((k, v) :: post) with ([(k, v)] ++ post)%list.
    rewrite !buildQueryString_app.
    assert (buildQueryString [(k, v)] = Normal EmptyString) as ->
      by (by destruct Hv as [-> | ->]).
    destruct (buildQueryString pre), (buildQueryString post); reflexivity.
  - intros k items texts Htexts.
    assert (Hpairs : forEach (fun item => returned text <- String_ item;
                                          Normal (k, text)) items
                     = Normal (map (fun text => (k, text)) texts)).
    { apply forEach_normal. apply Forall2_fmap_r.
      eapply Forall2_impl; [exact Htexts |].
      intros item text Hitem. unfold String_. by rewrite Hitem. }
    unfold buildQueryString. cbn [forEach entryPairs]. rewrite Hpairs.
    cbn [andThen concat]. rewrite app_nil_r.
    unfold URLSearchParams.toString. by rewrite map_map.
  - intros k v text Hu Hn Ha Htext.
    unfold buildQueryString. cbn [forEach].
    assert (entryPairs (k, v) = Normal [(k, text)]) as ->.
    { unfold entryPairs, String_. rewrite Htext. by destruct v. }
    reflexivity.
  - repeat split; try reflexivity.
    + by intros [].
    + intros props Hprops. cbn. by rewrite Hprops.
  - reflexivity.
  - apply buildQueryString_app.
  - intros params q Hq.
    apply buildQueryString_normal in Hq as (appended & Happended & ->).
    assert (H : string_forall is_query_byte
                  (URLSearchParams.toString (concat appended)) = true)
      by apply toString_query_bytes.
    split; [exact H |]. split.
    + destruct (URLSearchParams.toString (concat appended)) as [| c rest];
        [reflexivity |].
      apply andb_true_iff in H as [Hc _].
      destruct c as [[] [] [] [] [] [] [] []]; try reflexivity; discriminate.
    + exists appended. split; [done | apply parse_query_toString].
  - split; [apply percent_decode_encode |]. split; [reflexivity |].
    intros c s Hc.
    change (URLSearchParams.encode_byte c +:+ URLSearchParams.encode s
            = String c (URLSearchParams.encode s)).
    unfold URLSearchParams.encode_byte. rewrite Hc.
    by destruct (Ascii.eqb_spec c " ") as [-> | _].
  - repeat split; vm_compute; reflexivity.
Qed.

Lemma buildQueryString_spec_witness :
  buildQueryString [("limit", JNum 20); ("cursor", JNull); ("sort", JStr "name asc")]
  = buildQueryString [("limit", JNum 20); ("sort", JStr "name asc")].
Proof.
  exact (proj1 buildQueryString_spec [("limit", JNum 20)] "cursor" JNull
           [("sort", JStr "name asc")] (or_intror eq_refl)).
Defined.

(** ** Request bodies *)

(** C8. The code departs from the claim, from its own comment ("Add body
    if present") and from the documentation of [RequestOptions.body]
    ("will be JSON stringified"): the guard tests the truthiness of the
    body, so that a body that is present but falsy, such as [false] or
    [0], is not attached to a POST request, although its JSON encoding
    exists. *)
Theorem falsy_body_not_attached :
  (let options := with_body (JBool false) (with_method "POST" RequestOptions.empty) in
   RequestOptions.body options <> JUndefined /\
   RequestOptions.method options = Some "POST" /\
   JSON.stringify (RequestOptions.body options) = Some "false" /\
   RequestInit.body (requestInit plain_client options) = None /\
   exists url init t,
     (Wrappers.post plain_client (always TimerFired) "/flags" (JBool false)
        RequestOptions.empty).1 = [CallFetch url init t] /\
     RequestInit.body init = None) /\
  (let options := with_body (JNum 0) (with_method "PUT" RequestOptions.empty) in
   RequestOptions.body options <> JUndefined /\
   RequestOptions.method options = Some "PUT" /\
   JSON.stringify (RequestOptions.body options) = Some "0" /\
   RequestInit.body (requestInit plain_client options) = None /\
   exists url init t,
     (Wrappers.put plain_client (always TimerFired) "/quota" (JNum 0)
        RequestOptions.empty).1 = [CallFetch url init t] /\
     RequestInit.body init = None).
Proof.
  split; cbv zeta.
  - split; [discriminate |]. split; [reflexivity |].
    split; [reflexivity |]. split; [reflexivity |].
    do 3 eexists. split; reflexivity.
  - split; [discriminate |]. split; [reflexivity |].
    split; [reflexivity |]. split; [reflexivity |].
    do 3 eexists. split; reflexivity.
Qed.

(** X22. For a request whose body is truthy (neither [undefined],
    [null], [false], a zero, [NaN] nor the empty string) and whose method
    is not GET, the body handed to [fetch] is the body itself when it is
    a string and its JSON encoding otherwise; when the method is GET, or
    the body is falsy, no body is attached. *)
Theorem request_body_serialization (this : HTTPClient) (options : RequestOptions.t) :
  let method := default "GET" (RequestOptions.method options) in
  let body := RequestOptions.body options in
  let sent := RequestInit.body (requestInit this options) in
  (forall s, body = JStr s -> s <> EmptyString -> method <> "GET" ->
             sent = Some s) /\
  (isString body = false -> truthy body = true -> method <> "GET" ->
   sent = JSON.stringify body /\ sent = Some (JSON.serialize body)) /\
  (method = "GET" -> sent = None) /\
  (truthy body = false -> sent = None) /\
  (forall net path url init t,
     CallFetch url init t ∈ (request this net path options).1 ->
     RequestInit.body init = sent).
Proof.
  intros method body sent. subst sent.
  assert (Hnot_get : method <> "GET" -> String.eqb method "GET" = false)
    by apply String.eqb_neq.
  unfold requestInit. fold method body.
  split; [| split; [| split; [| split]]].
  - intros s Hb Hs Hm. rewrite Hb, (Hnot_get Hm). by destruct s.
  - intros Hstr Htruthy Hm. rewrite Htruthy, (Hnot_get Hm).
    by destruct body.
  - intros ->. by rewrite andb_false_r.
  - by intros ->.
  - intros net path url init t Hev. apply request_trace in Hev.
    destruct Hev as [[url' [_ [Hev | Hev]]] | [[r Hev] | [e Hev]]];
      try discriminate.
    by injection Hev as -> -> ->.
Qed.

Lemma request_body_serialization_witness :
  RequestInit.body
    (requestInit plain_client
       (with_body (JObj [("name", JStr "Order intake"); ("active", JBool true)])
          (with_method "POST" RequestOptions.empty)))
  = Some (JSON.serialize (JObj [("name", JStr "Order intake"); ("active", JBool true)])).
Proof.
  refine (proj2 (proj1 (proj2 (request_body_serialization plain_client
           (with_body (JObj [("name", JStr "Order intake"); ("active", JBool true)])
              (with_method "POST" RequestOptions.empty)))) eq_refl eq_refl _)).
  discriminate.
Defined.

(** ** Construction of the top-level client *)

(** C9. Constructing the client with an empty API key or an empty tenant
    identifier throws, and nothing was done before: no hook was called, no
    network call was made and no HTTP client was constructed. *)
Theorem construction_requires_credentials (config : RelayClientConfig.t) :
  RelayClientConfig.apiKey config = EmptyString \/
  RelayClientConfig.tenantId config = EmptyString ->
  exists msg : string,
    new_RelayClient config = ([], Throw (new_Error msg)) /\
    (RelayClientConfig.apiKey config = EmptyString ->
     msg = "API key is required") /\
    (RelayClientConfig.apiKey config <> EmptyString ->
     msg = "Tenant ID is required").
Proof.
  intros Hempty. unfold new_RelayClient, is_empty.
  destruct (String.eqb_spec (RelayClientConfig.apiKey config) EmptyString)
    as [Hkey | Hkey].
  - exists "API key is required". by repeat split.
  - destruct Hempty as [Hk | Ht]; [done |]. rewrite Ht.
    exists "Tenant ID is required". by repeat split.
Qed.

Lemma construction_requires_credentials_witness :
  exists msg : string,
    new_RelayClient
      {| RelayClientConfig.apiKey := "relay_live_key";
         RelayClientConfig.tenantId := EmptyString;
         RelayClientConfig.baseURL := None;
         RelayClientConfig.timeout := None;
         RelayClientConfig.headers := None;
         RelayClientConfig.onRequest := Some (fun _ => Normal tt);
         RelayClientConfig.onResponse := None;
         RelayClientConfig.onError := Some (fun _ => Normal tt) |}
    = ([], Throw (new_Error msg)).
Proof.
  destruct (construction_requires_credentials
              {| RelayClientConfig.apiKey := "relay_live_key";
                 RelayClientConfig.tenantId := EmptyString;
                 RelayClientConfig.baseURL := None;
                 RelayClientConfig.timeout := None;
                 RelayClientConfig.headers := None;
                 RelayClientConfig.onRequest := Some (fun _ => Normal tt);
                 RelayClientConfig.onResponse := None;
                 RelayClientConfig.onError := Some (fun _ => Normal tt) |}
              (or_intror eq_refl)) as (msg & Hmsg & _).
  exists msg. exact Hmsg.
Defined.

(** With both present the constructor completes, having constructed the
    HTTP client and nothing else. *)
Lemma construction_succeeds (config : RelayClientConfig.t) :
  RelayClientConfig.apiKey config <> EmptyString ->
  RelayClientConfig.tenantId config <> EmptyString ->
  exists relay : RelayClient,
    new_RelayClient config =
      ([ConstructHTTPClient
          (default "https://api.relay.com" (RelayClientConfig.baseURL config))
          (RelayClientConfig.apiKey config)],
       Normal relay) /\
    tenantId relay = RelayClientConfig.tenantId config /\
    apiKey (httpClient relay) = RelayClientConfig.apiKey config.
Proof.
  intros Hk Ht. unfold new_RelayClient, is_empty.
  apply String.eqb_neq in Hk, Ht. rewrite Hk, Ht.
  eexists. by repeat split.
Qed.

(** * Further properties *)

(** ** Appending a query to a URL *)

Lemma toString_empty l :
  URLSearchParams.toString l = EmptyString <-> l = [].
Proof.
  split; [| by intros ->].
  destruct l as [| p l]; [done |]. rewrite toString_cons.
  unfold ampersand.
  pose proof (encode_pair_nonempty p) as Hp.
  destruct (String.eqb_spec (URLSearchParams.encode_pair p) EmptyString); [done |].
  destruct (String.eqb_spec (URLSearchParams.toString l) EmptyString); [done |].
  intros H. by apply (append_nonempty_l _ _ Hp) in H.
Qed.

Lemma entryPairs_silent entry : entryPairs entry = Normal [] <-> silent entry.2.
Proof.
  destruct entry as [k v]. unfold silent. cbn.
  destruct v as [| | b | x | s | [| item items] | props]; cbn;
    try (split; [try discriminate; auto | intros [H | [H | H]]; discriminate || done]).
  - by destruct b.
  - destruct (String_ item); cbn; [| discriminate].
    by destruct (forEach _ items).
  - by destruct (String_ (JObj props)).
Qed.

Lemma queryPairs_silent params :
  (exists appended, forEach entryPairs params = Normal appended /\
                    concat appended = []) <->
  Forall (fun entry => silent entry.2) params.
Proof.
  induction params as [| entry params IH].
  - split; [constructor | by exists []].
  - rewrite Forall_cons, <- IH, <- entryPairs_silent. cbn [forEach]. split.
    + intros (appended & Happended & Hnil).
      destruct (entryPairs entry) as [pairs |]; cbn in Happended; [| done].
      destruct (forEach entryPairs params) as [rest |]; cbn in Happended; [| done].
      injection Happended as <-. cbn in Hnil.
      apply app_eq_nil in Hnil as [-> Hrest]. split; [done | by exists rest].
    + intros [-> (rest & -> & Hrest)]. by exists ([] :: rest).
Qed.

Lemma append_empty (a : string) : a +:+ EmptyString = a.
Proof.
  induction a as [| x a IH]; [reflexivity |].
  change (String x (a +:+ EmptyString) = String x a). by rewrite IH.
Qed.

Lemma append_cancel_l (a b : string) : a +:+ b = a -> b = EmptyString.
Proof.
  induction a as [| x a IH]; [done |].
  intros H. apply IH. by injection H.
Qed.

(** X1. [appendQueryParams] returns the URL unchanged exactly when the
    mapping appends nothing, that is when every value is [undefined],
    [null] or an empty array (in particular for the empty mapping). *)
Theorem appendQueryParams_unchanged (url : string) (params : list (string * JValue)) :
  appendQueryParams url params = Normal url <->
  Forall (fun entry => silent entry.2) params.
Proof.
  rewrite <- queryPairs_silent. unfold appendQueryParams.
  destruct (buildQueryString params) as [q | t] eqn:Hq; cbn.
  - apply buildQueryString_normal in Hq as (appended & Happended & ->).
    destruct (String.eqb_spec (URLSearchParams.toString (concat appended))
                EmptyString) as [Hempty | Hfull].
    + apply toString_empty in Hempty. split; [| done]. by exists appended.
    + split.
      * intros [= H%append_cancel_l]. by destruct (includes "?" url).
      * intros (appended' & Happended' & Hnil).
        rewrite Happended in Happended'. injection Happended' as <-.
        by rewrite Hnil in Hfull.
  - split; [done |]. intros (appended & Happended & _).
    assert (buildQueryString params
            = Normal (URLSearchParams.toString (concat appended)))
      by (apply buildQueryString_normal; by exists appended).
    congruence.
Qed.

Lemma prefix_app (sub a b : string) :
  String.prefix sub a = true -> String.prefix sub (a +:+ b) = true.
Proof.
  revert a. induction sub as [| c sub IH]; intros a;
    [by destruct a, b |].
  destruct a as [| x a]; [done |].
  change (String x a +:+ b) with (String x (a +:+ b)). cbn [String.prefix].
  destruct (ascii_dec c x); [apply IH | done].
Qed.

Lemma includes_app_l (sub a b : string) :
  includes sub a = true -> includes sub (a +:+ b) = true.
Proof.
  induction a as [| x a IH].
  - cbn. rewrite orb_false_r. destruct sub; [| done]. intros _. by destruct b.
  - change (String x a +:+ b) with (String x (a +:+ b)). cbn [includes].
    intros [H | H]%orb_true_iff; apply orb_true_iff.
    + left. by apply (prefix_app _ (String x a)).
    + right. by apply IH.
Qed.

Lemma includes_separator (a b : string) : includes "?" (a +:+ "?" +:+ b) = true.
Proof.
  induction a as [| x a IH]; [by destruct b |].
  change (includes "?" (String x (a +:+ "?" +:+ b)) = true).
  cbn [includes]. rewrite IH. apply orb_true_r.
Qed.

(** X2. Appending two mappings one after the other is appending their
    concatenation: the second query is joined with [&], because the URL
    then holds a [?]. *)
Theorem appendQueryParams_app (url : string) (p1 p2 : list (string * JValue)) :
  (returned extended <- appendQueryParams url p1; appendQueryParams extended p2)
  = appendQueryParams url (p1 ++ p2).
Proof.
  unfold appendQueryParams. rewrite buildQueryString_app.
  destruct (buildQueryString p1) as [q1 | t1]; cbn [andThen]; [| done].
  destruct (String.eqb_spec q1 EmptyString) as [-> | H1]; cbn [andThen].
  - by destruct (buildQueryString p2).
  - destruct (buildQueryString p2) as [q2 | t2]; cbn [andThen]; [| done].
    destruct (String.eqb_spec q2 EmptyString) as [-> | H2].
    + rewrite ampersand_empty_r.
      by destruct (String.eqb_spec q1 EmptyString).
    + rewrite ampersand_nonempty by done.
      destruct (String.eqb_spec (q1 +:+ "&" +:+ q2) EmptyString) as [H | _];
        [by apply (append_nonempty_l _ _ H1) in H |].
      assert (includes "?" (url +:+ (if includes "?" url then "&" else "?")
                            +:+ q1) = true) as ->.
      { destruct (includes "?" url) eqn:E.
        - by apply includes_app_l.
        - apply includes_separator. }
      by rewrite !append_assoc.
Qed.

(** ** The shape of a query string *)

Lemma count_byte_app c (a b : string) :
  count_byte c (a +:+ b) = count_byte c a + count_byte c b.
Proof.
  induction a as [| x a IH]; [reflexivity |].
  change (String x a +:+ b) with (String x (a +:+ b)). cbn [count_byte].
  rewrite IH. lia.
Qed.

Lemma count_byte_absent P c (s : string) :
  P c = false -> string_forall P s = true -> count_byte c s = 0.
Proof.
  intros Hc. induction s as [| x s IH]; [reflexivity |]. cbn.
  intros [Hx Hs]%andb_true_iff. rewrite (IH Hs).
  destruct (Ascii.eqb_spec x c) as [-> | _]; [congruence | reflexivity].
Qed.

Lemma count_byte_encode c s :
  is_value_byte c = false -> count_byte c (URLSearchParams.encode s) = 0.
Proof. intros Hc. eapply count_byte_absent; [exact Hc | apply encode_value_bytes]. Qed.

Lemma count_byte_toString pairs :
  count_byte "=" (URLSearchParams.toString pairs) = length pairs /\
  count_byte "&" (URLSearchParams.toString pairs) = length pairs - 1.
Proof.
  induction pairs as [| p pairs [IHeq IHamp]]; [done |].
  rewrite toString_cons.
  assert (Hp : count_byte "=" (URLSearchParams.encode_pair p) = 1 /\
               count_byte "&" (URLSearchParams.encode_pair p) = 0).
  { unfold URLSearchParams.encode_pair.
    rewrite !count_byte_app, !count_byte_encode by reflexivity. done. }
  destruct Hp as [Hpeq Hpamp].
  destruct pairs as [| q pairs].
  - rewrite ampersand_empty_r. by rewrite Hpeq, Hpamp.
  - rewrite ampersand_nonempty;
      [| apply encode_pair_nonempty | by rewrite toString_empty].
    rewrite !count_byte_app, Hpeq, Hpamp, IHeq, IHamp. cbn. split; lia.
Qed.

Lemma length_entryPairs entry pairs :
  entryPairs entry = Normal pairs -> length pairs = pairsOf entry.
Proof.
  destruct entry as [k v]. unfold pairsOf. cbn [snd entryPairs].
  destruct v as [| | b | x | s | items | props];
    try (by intros [= <-]);
    try (destruct (String_ _); cbn; [by intros [= <-] | done]).
  intros Hitems%forEach_normal. symmetry. eapply Forall2_length, Hitems.
Qed.

Lemma length_queryPairs params appended :
  forEach entryPairs params = Normal appended ->
  length (concat appended) = sum_list (map pairsOf params).
Proof.
  intros H%forEach_normal. induction H as [| entry pairs params appended Hp _ IH];
    [reflexivity |].
  cbn [concat map sum_list]. by rewrite length_app, IH, (length_entryPairs _ _ Hp).
Qed.

(** X3. In the query string every appended pair shows as exactly one
    [=], and consecutive pairs are separated by exactly one [&]: names
    and values never contain a raw [=] or [&].  The number of pairs is
    the number of array elements plus the number of other values that are
    neither [null] nor [undefined]. *)
Theorem query_string_separators (params : list (string * JValue)) (q : string) :
  buildQueryString params = Normal q ->
  let n := sum_list (map pairsOf params) in
  count_byte "=" q = n /\
  count_byte "&" q = n - 1 /\
  (q = EmptyString <-> n = 0).
Proof.
  intros (appended & Happended & ->)%buildQueryString_normal n. subst n.
  rewrite <- (length_queryPairs _ _ Happended).
  split; [apply count_byte_toString |]. split; [apply count_byte_toString |].
  rewrite toString_empty. split; [by intros -> | apply nil_length_inv].
Qed.

(** ** The base URL *)

Lemma removeTrailingSlash_cons c rest :
  rest <> EmptyString ->
  removeTrailingSlash (String c rest) = String c (removeTrailingSlash rest).
Proof. by destruct rest. Qed.

Lemma removeTrailingSlash_slash (s : string) : removeTrailingSlash (s +:+ "/") = s.
Proof.
  induction s as [| c s IH]; [reflexivity |].
  change (String c s +:+ "/") with (String c (s +:+ "/")).
  rewrite removeTrailingSlash_cons, IH; [reflexivity | by destruct s].
Qed.

Lemma removeTrailingSlash_other (s : string) :
  (forall s', s <> s' +:+ "/") -> removeTrailingSlash s = s.
Proof.
  induction s as [| c s IH]; [reflexivity |]. intros Hs.
  destruct s as [| d s].
  - cbn. destruct (Ascii.eqb_spec c "/") as [-> | _]; [| reflexivity].
    by destruct (Hs EmptyString).
  - rewrite removeTrailingSlash_cons by done. f_equal. apply IH.
    intros s' Hs'. apply (Hs (String c s')). by rewrite Hs'.
Qed.

(** X4. The constructor removes exactly one trailing slash from the base
    URL and leaves a base URL without trailing slash as it is, so that a
    path is appended to the same base in both cases. *)
Theorem base_url_normalisation (config : HTTPClientConfig.t) (base path : string) :
  (HTTPClientConfig.baseURL config = base +:+ "/" ->
   baseURL (new_HTTPClient config) = base /\
   requestURL (new_HTTPClient config) path RequestOptions.empty
   = Normal (base +:+ path)) /\
  ((forall s, HTTPClientConfig.baseURL config <> s +:+ "/") ->
   baseURL (new_HTTPClient config) = HTTPClientConfig.baseURL config).
Proof.
  split.
  - intros Hb. unfold requestURL. cbn. rewrite Hb, removeTrailingSlash_slash. done.
  - intros Hb. cbn. by apply removeTrailingSlash_other.
Qed.

Lemma base_url_normalisation_witness :
  baseURL (new_HTTPClient plain_config) = "https://api.relay.com" /\
  requestURL (new_HTTPClient plain_config) "/api-keys" RequestOptions.empty
  = Normal "https://api.relay.com/api-keys".
Proof.
  exact (proj1 (base_url_normalisation plain_config "https://api.relay.com" "/api-keys")
           eq_refl).
Defined.

(** ** The calls of one request *)

Lemma attempt_shape this net url init t :
  exists resp : list Event,
    (attempt this net url init t).1 = CallFetch url init t :: resp /\
    (resp = [] \/ exists r, resp = [CallOnResponse r]).
Proof.
  unfold attempt, runHook, call, lift, bind.
  destruct (net url init t) as [response | reason |]; cbn;
    [| by exists []; auto ..].
  destruct (onResponse this) as [h |]; cbn.
  - destruct (h response); cbn; eexists; split; eauto.
  - exists []. auto.
Qed.

Lemma recover_shape this reason :
  (recover this reason).1 = [] \/ exists e, (recover this reason).1 = [CallOnError e].
Proof.
  unfold recover, runHook, call, lift, throw, bind.
  destruct (handleError reason) as [e | failure]; cbn; [| by left].
  destruct (onError this) as [h |]; cbn; [| by left].
  right. exists e. by destruct (h e).
Qed.

(** The trace of [request] once the request hook has completed. *)
Lemma guarded_shape this net url init t :
  exists resp err : list Event,
    (try_catch (attempt this net url init t) (recover this)).1
    = CallFetch url init t :: (resp ++ err)%list /\
    (resp = [] \/ exists r, resp = [CallOnResponse r]) /\
    (err = [] \/ exists e, err = [CallOnError e]).
Proof.
  destruct (attempt_shape this net url init t) as (resp & Htr & Hresp).
  destruct (attempt this net url init t) as [tr [a | reason]] eqn:Hatt;
    cbn in Htr; subst tr; cbn [try_catch].
  - exists resp, []. rewrite app_nil_r. auto.
  - pose proof (recover_shape this reason) as Hrec.
    destruct (recover this reason) as [tr' r] eqn:Hr. cbn in Hrec.
    exists resp, tr'. cbn. auto.
Qed.

(** X6. Whatever the hooks and the network do, one call to [request]
    calls the request hook, [fetch], the response hook and the error hook
    at most once each and in this order. *)
Theorem calls_in_order (this : HTTPClient) (net : Network) (path : string)
    (options : RequestOptions.t) :
  map tag (request this net path options).1
    `sublist_of` [RequestHook; Fetch; ResponseHook; ErrorHook].
Proof.
  destruct (requestURL this path options) as [url | failure] eqn:Hurl;
    [rewrite (request_with_url _ _ _ _ _ Hurl)
    | rewrite (request_without_url _ _ _ _ _ Hurl); apply sublist_nil_l].
  set (init := requestInit this options).
  set (t := default (timeout this) (RequestOptions.timeout options)).
  destruct (guarded_shape this net url init t)
    as (resp & err & Hg & Hresp & Herr).
  unfold runHook, call, ret, bind.
  destruct (onRequest this) as [h |]; [destruct (h (url, init)) |];
    destruct (try_catch _ _) as [tr r]; cbn in Hg; subst tr; cbn;
    destruct Hresp as [-> | [? ->]], Herr as [-> | [? ->]]; cbn;
    repeat first [apply sublist_nil | apply sublist_skip | apply sublist_cons].
Qed.



(** ** Timeouts *)

(** X5. When the timer fires first, the response hook is not called and
    the caller receives a TIMEOUT error with status 408, code
    TIMEOUT_ERROR and a message that names the effective timeout: the
    per-call timeout, or else the configured one, or else 30000. *)
Theorem timeout_classification (config : HTTPClientConfig.t) (net : Network)
    (path : string) (options : RequestOptions.t) (url : string) :
  let this := new_HTTPClient config in
  let init := requestInit this options in
  let t := default (default 30000%Z (HTTPClientConfig.timeout config))
             (RequestOptions.timeout options) in
  requestURL this path options = Normal url ->
  completes (onRequest this) (url, init) ->
  net url init t = TimerFired ->
  exists e : RelayError,
    new_TimeoutError
      (JStr ("Request timeout after " +:+ Number.toString t +:+ "ms")) JUndefined
    = Normal e /\
    kind e = TIMEOUT /\
    status e = Some 408%Z /\
    code e = JStr "TIMEOUT_ERROR" /\
    message e = "Request timeout after " +:+ Number.toString t +:+ "ms" /\
    (completes (onError this) e ->
     request this net path options
     = ((match onRequest this with
         | Some _ => [CallOnRequest url init] | None => [] end)
        ++ [CallFetch url init t]
        ++ (match onError this with
            | Some _ => [CallOnError e] | None => [] end),
        Throw (ThrownRelay e))%list).
Proof.
  intros this init t Hurl Hreq Hnet.
  eexists. split; [reflexivity |]. do 4 (split; [reflexivity |]).
  intros Herr.
  rewrite (request_with_url _ _ _ _ _ Hurl). fold init.
  change (default (timeout this) (RequestOptions.timeout options)) with t.
  rewrite (runHook_completes _ _ _ Hreq). cbn [bind].
  unfold attempt. rewrite Hnet.
  cbn [bind call try_catch new_TimeoutError new_RelayError Error_message String_
       ToString andThen defaultTo subclass].
  unfold recover. cbn [handleError lift bind].
  rewrite (runHook_completes _ _ _ Herr). cbn.
  by rewrite app_nil_r.
Qed.

Lemma timeout_classification_witness :
  exists e : RelayError,
    message e = "Request timeout after 30000ms" /\
    (request (new_HTTPClient plain_config) (always TimerFired) "/workflows"
       RequestOptions.empty).2
    = Throw (ThrownRelay e).
Proof.
  destruct (timeout_classification plain_config (always TimerFired)
              "/workflows" RequestOptions.empty
              "https://api.relay.com/workflows" eq_refl I eq_refl)
    as (e & _ & _ & _ & _ & Hmessage & Hrequest).
  exists e. split; [exact Hmessage |].
  exact (f_equal snd (Hrequest I)).
Defined.

(** ** The wrappers *)

Lemma fetch_arguments this net path options url init t :
  CallFetch url init t ∈ (request this net path options).1 ->
  requestURL this path options = Normal url /\
  init = requestInit this options /\
  t = default (timeout this) (RequestOptions.timeout options).
Proof.
  intros Hev. apply request_trace in Hev.
  destruct Hev as [[url' [Hurl [Hev | Hev]]] | [[r Hev] | [e Hev]]];
    try discriminate.
  by injection Hev as -> -> ->.
Qed.

(** X8. [get] always issues a GET without a body, whatever method and
    body the options hold, and its query argument replaces the query of
    the options. *)
Theorem get_wrapper (this : HTTPClient) (net : Network) (path : string)
    (query : option (list (string * JValue))) (options : RequestOptions.t)
    (url : string) (init : RequestInit.t) (t : Z) :
  CallFetch url init t ∈ (Wrappers.get this net path query options).1 ->
  RequestInit.method init = "GET" /\
  RequestInit.body init = None /\
  match query with
  | Some q => appendQueryParams (baseURL this +:+ path) q
  | None => Normal (baseURL this +:+ path)
  end = Normal url.
Proof.
  intros (Hurl & -> & _)%fetch_arguments. unfold requestInit. cbn.
  by rewrite andb_false_r.
Qed.

Lemma get_wrapper_witness :
  RequestInit.method
    (requestInit plain_client
       (with_query (Some [("page", JNum 2)])
          (with_method "GET"
             (with_body (JStr "ignored") (with_method "POST" RequestOptions.empty)))))
  = "GET" /\
  RequestInit.body
    (requestInit plain_client
       (with_query (Some [("page", JNum 2)])
          (with_method "GET"
             (with_body (JStr "ignored") (with_method "POST" RequestOptions.empty)))))
  = None.
Proof.
  assert (H : CallFetch "https://api.relay.com/workflows?page=2"
                (requestInit plain_client
                   (with_query (Some [("page", JNum 2)])
                      (with_method "GET"
                         (with_body (JStr "ignored")
                            (with_method "POST" RequestOptions.empty)))))
                30000
              ∈ (Wrappers.get plain_client (always TimerFired) "/workflows"
                   (Some [("page", JNum 2)])
                   (with_body (JStr "ignored")
                      (with_method "POST" RequestOptions.empty))).1).
  { apply list_elem_of_singleton. reflexivity. }
  destruct (get_wrapper _ _ _ _ _ _ _ _ H) as (Hm & Hb & _).
  split; [exact Hm | exact Hb].
Defined.

(** X9. [post], [put] and [patch] fix the method and the body: the
    method of the options is overridden and the body argument replaces
    the body of the options; the body is attached when it is truthy.
    [delete] fixes the method and attaches the body of the options. *)
Theorem body_wrappers (this : HTTPClient) (net : Network) (path : string)
    (body : JValue) (options : RequestOptions.t)
    (url : string) (init : RequestInit.t) (t : Z) :
  (CallFetch url init t ∈ (Wrappers.post this net path body options).1 ->
   RequestInit.method init = "POST" /\ RequestInit.body init = attachedBody body) /\
  (CallFetch url init t ∈ (Wrappers.put this net path body options).1 ->
   RequestInit.method init = "PUT" /\ RequestInit.body init = attachedBody body) /\
  (CallFetch url init t ∈ (Wrappers.patch this net path body options).1 ->
   RequestInit.method init = "PATCH" /\ RequestInit.body init = attachedBody body) /\
  (CallFetch url init t ∈ (Wrappers.delete this net path options).1 ->
   RequestInit.method init = "DELETE" /\
   RequestInit.body init = attachedBody (RequestOptions.body options)).
Proof.
  repeat split;
    match goal with H : _ ∈ _ |- _ => apply fetch_arguments in H as (_ & -> & _) end;
    unfold requestInit, attachedBody; cbn;
    rewrite ?andb_true_r.
  all: match goal with
       | |- context [truthy ?b] =>
           destruct b as [| | [] | x | s | items | props]; cbn;
           try reflexivity
       end.
  all: first [ by destruct (Number.truthy x) | by destruct s ].
Qed.

Lemma body_wrappers_witness :
  RequestInit.method
    (requestInit plain_client
       (with_body JUndefined (with_method "PUT" RequestOptions.empty)))
  = "PUT" /\
  RequestInit.body
    (requestInit plain_client
       (with_body JUndefined (with_method "PUT" RequestOptions.empty)))
  = None.
Proof.
  assert (H : CallFetch "https://api.relay.com/workflows/7/activate"
                (requestInit plain_client
                   (with_body JUndefined (with_method "PUT" RequestOptions.empty)))
                30000
              ∈ (Wrappers.put plain_client (always TimerFired)
                   "/workflows/7/activate" JUndefined RequestOptions.empty).1).
  { apply list_elem_of_singleton. reflexivity. }
  exact (proj1 (proj2 (body_wrappers _ _ _ _ _ _ _ _)) H).
Defined.

(** ** What a classified response carries *)

(** X21. For every response that is not 2xx and whose body supplies a
    message that can be converted to a string, or no message,
    [handleResponse] throws a classified error of the kind the table
    lists for the status, and of the GENERIC kind for a status that is
    not listed.  The message is the string of the body's message, or of
    its [error], or else "An error occurred"; a RATE_LIMIT error carries
    the body's [retry_after]; a SERVER error carries the status of the
    response; a GENERIC error carries the status of the response and the
    body's own code and details. *)
Theorem classification_by_status (response : Response.t) (text : string) :
  Response.ok response = false ->
  ToString (classifiedMessage (parseBody response)) = Some text ->
  exists e : RelayError,
    handleResponse response = Throw (ThrownRelay e) /\
    kind e = taxonomy (Response.status response) /\
    message e = text /\
    (kind e = RATE_LIMIT ->
     retryAfter e = optGet (parseBody response) "retry_after") /\
    (kind e = SERVER -> status e = Some (Response.status response)) /\
    (kind e = GENERIC ->
     status e = Some (Response.status response) /\
     code e = optGet (parseBody response) "code" /\
     details e = optGet (parseBody response) "details").
Proof.
  intros Hok Htext.
  destruct (createErrorFromResponse_converts (Response.status response)
              (parseBody response) text Htext) as (e & He & Hmessage).
  exists e. split; [by apply handleResponse_failure |].
  apply createErrorFromResponse_normal in He
    as (_ & Hkind & Hstatus & _ & Hcode & Hretry & _ & Hdetails).
  split; [exact Hkind |]. split; [exact Hmessage |]. split; [exact Hretry |].
  assert (Hplain : kind e <> VALIDATION ->
                   status e = Some (Response.status response)).
  { intros Hv. rewrite Hstatus. case_decide as H422; [| done].
    rewrite H422 in Hkind. by destruct Hv. }
  split; [intros Hk; apply Hplain; by rewrite Hk |].
  intros Hk. split; [apply Hplain; by rewrite Hk |]. by split; [apply Hcode |].
Qed.

Lemma classification_by_status_witness :
  exists e : RelayError,
    handleResponse response_429 = Throw (ThrownRelay e) /\
    kind e = RATE_LIMIT /\
    message e = "Slow down" /\
    retryAfter e = JNum 30.
Proof.
  destruct (classification_by_status response_429 "Slow down" eq_refl eq_refl)
    as (e & Hthrow & Hkind & Hmessage & Hretry & _).
  exists e. split; [exact Hthrow |]. split; [exact Hkind |].
  split; [exact Hmessage |]. exact (Hretry Hkind).
Defined.

(** X10. When [createErrorFromResponse] returns an error, its [status]
    is the status of the response, except for 422, which is reported as
    400.  For every listed status the [code] is the fixed code of the
    kind and the body's own [code] is dropped; only a RATE_LIMIT error
    has a [retryAfter]; the [details] are always the body's.  It returns
    an error exactly when the message it hands to the constructor can be
    converted to a string. *)
Theorem classified_fields (st : Z) (data : JValue) :
  (forall e, createErrorFromResponse st data = Normal e ->
     status e = Some (if decide (st = 422)%Z then 400%Z else st) /\
     (kind e <> GENERIC -> code e = kindCode (kind e)) /\
     (kind e <> RATE_LIMIT -> retryAfter e = JUndefined) /\
     details e = optGet data "details") /\
  ((exists e, createErrorFromResponse st data = Normal e) <->
   ToString (classifiedMessage data) <> None).
Proof.
  split.
  - intros e He.
    apply createErrorFromResponse_normal in He
      as (_ & _ & Hstatus & Hcode & _ & _ & Hretry & Hdetails).
    by repeat split.
  - split.
    + intros [e He]. apply createErrorFromResponse_normal in He as [-> _]. done.
    + destruct (ToString (classifiedMessage data)) as [text |] eqn:Htext; [| done].
      intros _.
      destruct (createErrorFromResponse_converts st data text Htext) as (e & He & _).
      by exists e.
Qed.

Lemma classified_fields_witness :
  exists e : RelayError,
    createErrorFromResponse 422 (JObj [("code", JStr "E_FIELD")]) = Normal e /\
    status e = Some 400%Z.
Proof.
  assert (Hconv : ToString (classifiedMessage (JObj [("code", JStr "E_FIELD")]))
                  <> None) by discriminate.
  destruct (proj2 (proj2 (classified_fields 422 (JObj [("code", JStr "E_FIELD")])))
              Hconv) as [e He].
  exists e. split; [exact He |].
  exact (proj1 (proj1 (classified_fields 422 (JObj [("code", JStr "E_FIELD")]))
                  e He)).
Defined.

(** X11. When the content type of a failing response does not contain
    [application/json], the body is not parsed: a non-empty text becomes
    the error's message as it is, and the error has no details, no
    [retryAfter] and, for a status that is not listed, no code. *)
Theorem text_body_becomes_message (response : Response.t) (text : string) :
  isJSON response = false ->
  Response.text response = Some text ->
  text <> EmptyString ->
  Response.ok response = false ->
  exists e : RelayError,
    handleResponse response = Throw (ThrownRelay e) /\
    message e = text /\
    details e = JUndefined /\
    retryAfter e = JUndefined /\
    (kind e = GENERIC -> code e = JUndefined).
Proof.
  intros Hjson Htext Hne Hok.
  assert (Hdata : parseBody response = JObj [("message", JStr text)]).
  { unfold parseBody. rewrite Hjson, Htext. by destruct text. }
  assert (Hmessage : classifiedMessage (parseBody response) = JStr text).
  { rewrite Hdata. by apply classifiedMessage_supplied. }
  destruct (createErrorFromResponse_converts (Response.status response)
              (parseBody response) text) as (e & He & Hm);
    [by rewrite Hmessage |].
  exists e. split; [by apply handleResponse_failure |]. split; [exact Hm |].
  apply createErrorFromResponse_normal in He
    as (_ & Hkind & _ & _ & Hcode & Hretry & Hnoretry & Hdetails).
  rewrite Hdata in Hcode, Hretry, Hdetails.
  split; [exact Hdetails |]. split; [| exact Hcode].
  clear Hkind Hcode.
  destruct (kind e); first [exact (Hretry eq_refl) | by apply Hnoretry].
Qed.

Lemma text_body_becomes_message_witness :
  exists e : RelayError,
    handleResponse problem_response = Throw (ThrownRelay e) /\
    message e = "{ title: Conflict }".
Proof.
  assert (Hne : "{ title: Conflict }" <> EmptyString) by discriminate.
  destruct (text_body_becomes_message problem_response "{ title: Conflict }"
              eq_refl eq_refl Hne eq_refl)
    as (e & He & Hm & _).
  exists e. split; [exact He | exact Hm].
Defined.

(** ** Rejections without a reason *)

(** X12. When [fetch] is rejected with [null] or [undefined], or the
    response hook throws one of them, [handleError] itself fails while
    reading the message: the caller receives a [TypeError] that is not
    classified, and the error hook is not called. *)
Theorem nullish_rejection_escapes (this : HTTPClient) (net : Network)
    (path : string) (options : RequestOptions.t) (isTypeError : bool)
    (v : JValue) (url : string) :
  requestURL this path options = Normal url ->
  let init := requestInit this options in
  let t := default (timeout this) (RequestOptions.timeout options) in
  v = JNull \/ v = JUndefined ->
  completes (onRequest this) (url, init) ->
  net url init t = FetchRejected (ThrownValue isTypeError v) \/
  (exists r h, net url init t = Responded r /\ onResponse this = Some h /\
               h r = Throw (ThrownValue isTypeError v)) ->
  (exists msg : string,
     (request this net path options).2 = Throw (new_TypeError msg)) /\
  (forall e, CallOnError e ∉ (request this net path options).1).
Proof.
  intros Hurl init t Hv Hreq Hfail.
  assert (Hrec : exists msg, recover this (ThrownValue isTypeError v)
                             = ([], Throw (new_TypeError msg))).
  { destruct Hv as [-> | ->]; eexists; reflexivity. }
  destruct Hrec as [msg Hrec].
  assert (Hatt : exists tr, attempt this net url init t
                            = (tr, Throw (ThrownValue isTypeError v)) /\
                            forall e, CallOnError e ∉ tr).
  { pose proof (attempt_trace this net url init t) as Hno.
    unfold attempt in *.
    destruct Hfail as [Hnet | (r & h & Hnet & Hh & Hthrow)]; rewrite Hnet in *.
    - eexists. split; [reflexivity | exact Hno].
    - cbn [bind call] in *. unfold runHook in *. rewrite Hh in *.
      cbn in *. rewrite Hthrow in *. eexists. split; [reflexivity | exact Hno]. }
  destruct Hatt as (tr & Hatt & Hno).
  assert (Hrun : request this net path options =
                 ((match onRequest this with
                   | Some _ => [CallOnRequest url init] | None => [] end) ++ tr,
                  Throw (new_TypeError msg))%list).
  { rewrite (request_with_url _ _ _ _ _ Hurl). fold init t.
    rewrite (runHook_completes _ _ _ Hreq). cbn [bind].
    rewrite Hatt. cbn [try_catch]. rewrite Hrec. by rewrite app_nil_r. }
  rewrite Hrun. split; [by exists msg |].
  intros e. cbn [fst]. apply not_elem_of_app. split; [| apply Hno].
  destruct (onRequest this); [| apply not_elem_of_nil].
  intros He%list_elem_of_singleton. discriminate.
Qed.

Lemma nullish_rejection_escapes_witness :
  exists msg : string,
    (request (hooked_client None None (Some (fun _ => Normal tt)))
       (always (FetchRejected (ThrownValue false JUndefined)))
       "/workflows" RequestOptions.empty).2
    = Throw (new_TypeError msg).
Proof.
  exact (proj1 (nullish_rejection_escapes
                  (hooked_client None None (Some (fun _ => Normal tt)))
                  (always (FetchRejected (ThrownValue false JUndefined)))
                  "/workflows" RequestOptions.empty false JUndefined
                  "https://api.relay.com/workflows" eq_refl
                  (or_intror eq_refl) I (or_introl eq_refl))).
Defined.

(** ** Paths of the services *)

Lemma prefix_slash (path : string) :
  String.prefix "/" path = true -> exists rest, path = "/" +:+ rest.
Proof.
  destruct path as [| c path]; [done |].
  destruct c as [[] [] [] [] [] [] [] []]; intros H;
    first [discriminate H | by exists path].
Qed.

(** X13. [buildPath] puts the path under [/api/tenant/<tenant>] and the
    base path of the service.  It inserts a slash before a path that
    does not start with one, so that such a path and the same path with
    a leading slash give the same result, and it keeps the path as it is
    otherwise: the leading slashes of the path are not merged (a path
    that starts with two slashes keeps both).  For the empty path the
    result ends with the inserted slash. *)
Theorem buildPath_shape (this : BaseService) (basePath path : string) :
  (String.prefix "/" path = false ->
   buildPath this basePath path = buildPath this basePath ("/" +:+ path)) /\
  (exists rest : string,
     buildPath this basePath path
     = "/api/tenant/" +:+ service_tenantId this +:+ basePath +:+ "/" +:+ rest /\
     (path = rest \/ path = "/" +:+ rest)) /\
  (String.prefix "/" path = true ->
   buildPath this basePath path
   = "/api/tenant/" +:+ service_tenantId this +:+ basePath +:+ path) /\
  buildPath this basePath ("//" +:+ path)
  = "/api/tenant/" +:+ service_tenantId this +:+ basePath +:+ "//" +:+ path /\
  buildPath this basePath EmptyString
  = "/api/tenant/" +:+ service_tenantId this +:+ basePath +:+ "/".
Proof.
  unfold buildPath. split; [| split; [| split; [| split]]].
  - intros ->. by destruct path.
  - destruct (String.prefix "/" path) eqn:E.
    + apply prefix_slash in E as [rest ->]. exists rest. split; [| by right].
      by destruct rest.
    + exists path. by split; [| left].
  - by intros ->.
  - reflexivity.
  - reflexivity.
Qed.

Lemma buildPath_shape_witness :
  buildPath sample_service "/channels" "active"
  = buildPath sample_service "/channels" "/active".
Proof.
  exact (proj1 (buildPath_shape sample_service "/channels" "active") eq_refl).
Defined.

Lemma buildPath_scope (this : BaseService) (basePath path : string) :
  exists rest, buildPath this basePath path
               = ("/api/tenant/" +:+ service_tenantId this +:+ basePath +:+ "/")
                 +:+ rest.
Proof.
  unfold buildPath. destruct (String.prefix "/" path) eqn:E.
  - apply prefix_slash in E as [rest ->]. exists rest.
    change ("/" +:+ rest) with (String "/" rest). by rewrite !append_assoc.
  - exists path. by rewrite !append_assoc.
Qed.

Lemma requestURL_scope this path options url :
  requestURL this path options = Normal url ->
  exists rest, url = (baseURL this +:+ path) +:+ rest.
Proof.
  unfold requestURL, appendQueryParams.
  destruct (RequestOptions.query options) as [q |].
  - destruct (buildQueryString q) as [queryString |]; cbn [andThen]; [| done].
    destruct (String.eqb _ _); intros [= <-].
    + exists EmptyString. by rewrite append_empty.
    + eexists. reflexivity.
  - intros [= <-]. exists EmptyString. by rewrite append_empty.
Qed.

Lemma tenant_scoped_url (this : BaseService) (net : Network) (basePath path : string)
    (options : RequestOptions.t) (url : string) (init : RequestInit.t) (t : Z) :
  CallFetch url init t ∈
    (request (client this) net (buildPath this basePath path) options).1 ->
  exists rest,
    url = (baseURL (client this) +:+ "/api/tenant/" +:+ service_tenantId this
           +:+ basePath +:+ "/") +:+ rest.
Proof.
  intros (Hurl & _ & _)%fetch_arguments.
  destruct (requestURL_scope (client this) (buildPath this basePath path) options
              url Hurl) as [r1 ->].
  destruct (buildPath_scope this basePath path) as [r2 ->].
  exists (r2 +:+ r1). by rewrite !append_assoc.
Qed.

Lemma absolute_url (this : HTTPClient) (net : Network) (path : string)
    (options : RequestOptions.t) (url : string) (init : RequestInit.t) (t : Z) :
  RequestOptions.query options = None ->
  CallFetch url init t ∈ (request this net path options).1 ->
  url = baseURL this +:+ path.
Proof.
  intros Hq (Hurl & _ & _)%fetch_arguments. unfold requestURL in Hurl.
  rewrite Hq in Hurl. by injection Hurl.
Qed.

(** X14. Every call of the workflow service on a workflow or on the
    collection goes to a URL under
    [<base>/api/tenant/<tenant>/workflows/]; the validation and metadata
    calls go to fixed URLs that do not depend on the tenant. *)
Theorem workflow_calls_tenant_scoped (this : BaseService) (net : Network)
    (request : JValue) (params : option (list (string * JValue)))
    (id name : string) (ids : list string)
    (url : string) (init : RequestInit.t) (t : Z) :
  let scope := baseURL (client this) +:+ "/api/tenant/"
               +:+ service_tenantId this +:+ "/workflows/" in
  Forall (fun call : Eff JValue =>
            CallFetch url init t ∈ call.1 -> exists rest, url = scope +:+ rest)
    [WorkflowService.create this net request;
     WorkflowService.list this net params;
     WorkflowService.get this net id;
     WorkflowService.getByName this net name;
     WorkflowService.update this net id request;
     WorkflowService.delete this net id;
     WorkflowService.activate this net id;
     WorkflowService.deactivate this net id;
     WorkflowService.execute this net id request;
     WorkflowService.test this net request;
     WorkflowService.bulkActivate this net ids;
     WorkflowService.bulkDeactivate this net ids] /\
  Forall (fun call : Eff JValue * string =>
            CallFetch url init t ∈ call.1.1 ->
            url = baseURL (client this) +:+ call.2)
    [(WorkflowService.validate this net request, "/api/workflows/validate");
     (WorkflowService.getNodeTypes this net, "/api/nodes/types");
     (WorkflowService.getTriggerTypes this net, "/api/triggers/types")].
Proof.
  intros scope. split.
  - repeat apply Forall_cons_2; try apply Forall_nil_2; intros H;
      exact (tenant_scoped_url this net WorkflowService.basePath _ _ url init t H).
  - repeat apply Forall_cons_2; try apply Forall_nil_2; intros H;
      cbn [fst snd] in H |- *; by apply absolute_url in H.
Qed.

Lemma workflow_calls_tenant_scoped_witness :
  exists rest,
    "https://api.relay.com/api/tenant/tenant-123/workflows/?page=2"
    = "https://api.relay.com/api/tenant/tenant-123/workflows/" +:+ rest.
Proof.
  assert (H : CallFetch
                "https://api.relay.com/api/tenant/tenant-123/workflows/?page=2"
                (requestInit plain_client
                   (with_query (Some [("page", JNum 2)])
                      (with_method "GET" RequestOptions.empty)))
                30000
              ∈ (WorkflowService.list sample_service (always TimerFired)
                   (Some [("page", JNum 2)])).1).
  { apply list_elem_of_singleton. reflexivity. }
  epose proof (proj1 (workflow_calls_tenant_scoped sample_service
                        (always TimerFired) JUndefined (Some [("page", JNum 2)])
                        EmptyString EmptyString [] _ _ _)) as Hall.
  apply Forall_cons_1 in Hall as [_ Hall].
  apply Forall_cons_1 in Hall as [Hlist _].
  exact (Hlist H).
Defined.

Lemma encodeURIComponent_bytes (s : string) :
  string_forall is_component_byte (URIComponent.encodeURIComponent s) = true.
Proof.
  induction s as [| c s IH]; [reflexivity |].
  change (string_forall is_component_byte
            (URIComponent.encode_byte c +:+ URIComponent.encodeURIComponent s) = true).
  rewrite string_forall_app, IH, andb_true_r.
  destruct c as [[] [] [] [] [] [] [] []]; reflexivity.
Qed.

(** X15. [getByName] encodes the name: whatever the name is, the URL is
    the one of the [name/] endpoint followed by a single path segment
    that contains no [/], [?], [#] or [&]. *)
Theorem getByName_encodes_name (this : BaseService) (net : Network) (name : string)
    (url : string) (init : RequestInit.t) (t : Z) :
  CallFetch url init t ∈ (WorkflowService.getByName this net name).1 ->
  exists segment : string,
    url = baseURL (client this) +:+ "/api/tenant/" +:+ service_tenantId this
          +:+ "/workflows/name/" +:+ segment /\
    segment = URIComponent.encodeURIComponent name /\
    count_byte "/" segment = 0 /\ count_byte "?" segment = 0 /\
    count_byte "#" segment = 0 /\ count_byte "&" segment = 0.
Proof.
  intros H. apply absolute_url in H; [| reflexivity].
  exists (URIComponent.encodeURIComponent name).
  split; [rewrite H; unfold buildPath; cbn; by rewrite !append_assoc |].
  split; [reflexivity |].
  repeat split;
    (eapply count_byte_absent; [| apply encodeURIComponent_bytes]; reflexivity).
Qed.

Lemma getByName_encodes_name_witness :
  exists segment : string,
    "https://api.relay.com/api/tenant/tenant-123/workflows/name/a%2Fb%3Fc"
    = baseURL (client sample_service) +:+ "/api/tenant/"
      +:+ service_tenantId sample_service +:+ "/workflows/name/" +:+ segment /\
    count_byte "/" segment = 0.
Proof.
  assert (H : CallFetch
                "https://api.relay.com/api/tenant/tenant-123/workflows/name/a%2Fb%3Fc"
                (requestInit plain_client
                   (with_query None (with_method "GET" RequestOptions.empty)))
                30000
              ∈ (WorkflowService.getByName sample_service (always TimerFired)
                   "a/b?c").1).
  { apply list_elem_of_singleton. reflexivity. }
  destruct (getByName_encodes_name _ _ _ _ _ _ H)
    as (segment & Hurl & _ & Hslash & _).
  exists segment. split; [exact Hurl | exact Hslash].
Defined.

(** ** Public endpoints *)

(** X16. The two public invitation calls are sent like every other call,
    with the [Authorization] header of the client.  [validateToken]
    sends the token as the percent-encoded query parameter [token], also
    when the token is empty; [getByToken] puts the token into the path as
    it is. *)
Theorem public_invitation_calls (this : BaseService) (net : Network)
    (token : string) (url : string) (init : RequestInit.t) (t : Z) :
  let authorized :=
    RequestInit.headers init !! "Authorization"
    = Some ("Bearer " +:+ apiKey (client this)) in
  (CallFetch url init t ∈ (InvitationService.validateToken this net token).1 ->
   let target := baseURL (client this) +:+ "/invitations/public/validate" in
   url = target +:+ (if includes "?" target then "&" else "?")
         +:+ "token=" +:+ URLSearchParams.encode token /\
   authorized) /\
  (CallFetch url init t ∈ (InvitationService.getByToken this net token).1 ->
   url = baseURL (client this) +:+ "/invitations/public/token/" +:+ token /\
   authorized).
Proof.
  cbv zeta. split; intros (Hurl & -> & _)%fetch_arguments;
    (split; [| rewrite requestInit_headers; apply lookup_insert_eq]).
  - match type of Hurl with
    | ?computed = _ =>
        assert (Hexpected :
                  computed
                  = Normal
                      ((baseURL (client this) +:+ "/invitations/public/validate")
                       +:+ (if includes "?"
                                 (baseURL (client this)
                                  +:+ "/invitations/public/validate")
                            then "&" else "?")
                       +:+ "token=" +:+ URLSearchParams.encode token))
          by reflexivity
    end.
    congruence.
  - match type of Hurl with
    | ?computed = _ =>
        assert (Hexpected :
                  computed
                  = Normal (baseURL (client this)
                            +:+ "/invitations/public/token/" +:+ token))
          by reflexivity
    end.
    congruence.
Qed.

Lemma public_invitation_calls_witness :
  RequestInit.headers
    (requestInit plain_client
       (with_query (Some [("token", JStr "a b&c")])
          (with_method "GET" RequestOptions.empty)))
    !! "Authorization"
  = Some "Bearer relay_test_key".
Proof.
  assert (H : CallFetch
                "https://api.relay.com/invitations/public/validate?token=a+b%26c"
                (requestInit plain_client
                   (with_query (Some [("token", JStr "a b&c")])
                      (with_method "GET" RequestOptions.empty)))
                30000
              ∈ (InvitationService.validateToken sample_service
                   (always TimerFired) "a b&c").1).
  { apply list_elem_of_singleton. reflexivity. }
  exact (proj2 (proj1 (public_invitation_calls _ _ _ _ _ _) H)).
Defined.

(** ** The top-level client *)

(** X17. The constructor completes exactly when the API key and the
    tenant identifier are both non-empty.  It then constructs one HTTP
    client, for the given base URL or else [https://api.relay.com], with
    the trailing slash removed, and every service uses that client and
    the tenant identifier of the configuration. *)
Theorem relay_client_construction (config : RelayClientConfig.t) :
  let base := default "https://api.relay.com" (RelayClientConfig.baseURL config) in
  (RelayClientConfig.apiKey config <> EmptyString /\
   RelayClientConfig.tenantId config <> EmptyString) <->
  exists relay : RelayClient,
    new_RelayClient config
    = ([ConstructHTTPClient base (RelayClientConfig.apiKey config)], Normal relay) /\
    getTenantId relay = RelayClientConfig.tenantId config /\
    getBaseURL relay = removeTrailingSlash base /\
    timeout (httpClient relay) = default 30000%Z (RelayClientConfig.timeout config) /\
    Forall (fun service : BaseService =>
              client service = httpClient relay /\
              service_tenantId service = RelayClientConfig.tenantId config)
      [workflows relay; tools relay; credentials relay; channels relay;
       apiKeys relay; invitations relay; webhooks relay].
Proof.
  intros base. unfold new_RelayClient, is_empty.
  destruct (String.eqb_spec (RelayClientConfig.apiKey config) EmptyString)
    as [Hk | Hk].
  { split; [by intros [? _] | by intros (relay & [=] & _)]. }
  destruct (String.eqb_spec (RelayClientConfig.tenantId config) EmptyString)
    as [Ht | Ht].
  { split; [by intros [_ ?] | by intros (relay & [=] & _)]. }
  split; [intros _ | intros _; by split].
  eexists. split; [reflexivity |].
  split; [reflexivity |]. split; [reflexivity |]. split; [reflexivity |].
  repeat apply Forall_cons_2; try apply Forall_nil_2; by split.
Qed.

Lemma relay_client_construction_witness :
  exists relay : RelayClient,
    new_RelayClient relay_config
    = ([ConstructHTTPClient "https://api.relay.com" "relay_live_key"], Normal relay) /\
    getTenantId relay = "tenant-123".
Proof.
  assert (Hk : RelayClientConfig.apiKey relay_config <> EmptyString)
    by discriminate.
  assert (Ht : RelayClientConfig.tenantId relay_config <> EmptyString)
    by discriminate.
  destruct (proj1 (relay_client_construction relay_config) (conj Hk Ht))
    as (relay & Hnew & Htenant & _).
  exists relay. split; [exact Hnew | exact Htenant].
Defined.

(** X18. A workflow lookup through a constructed client issues a GET
    without a body to
    [<base>/api/tenant/<tenant>/workflows/<id>], where the base is the
    configured base URL without its trailing slash, authorized by the
    configured API key, with the configured timeout or else 30000. *)
Theorem workflow_lookup_end_to_end (config : RelayClientConfig.t)
    (tr : list Event) (relay : RelayClient) (net : Network) (id : string)
    (url : string) (init : RequestInit.t) (t : Z) :
  new_RelayClient config = (tr, Normal relay) ->
  CallFetch url init t ∈ (WorkflowService.get (workflows relay) net id).1 ->
  url = removeTrailingSlash
          (default "https://api.relay.com" (RelayClientConfig.baseURL config))
        +:+ "/api/tenant/" +:+ RelayClientConfig.tenantId config
        +:+ "/workflows/" +:+ id /\
  RequestInit.method init = "GET" /\
  RequestInit.body init = None /\
  RequestInit.headers init !! "Authorization"
  = Some ("Bearer " +:+ RelayClientConfig.apiKey config) /\
  t = default 30000%Z (RelayClientConfig.timeout config).
Proof.
  unfold new_RelayClient.
  destruct (is_empty (RelayClientConfig.apiKey config)); [discriminate |].
  destruct (is_empty (RelayClientConfig.tenantId config)); [discriminate |].
  intros [= <- <-] (Hurl & -> & ->)%fetch_arguments.
  split; [| split; [reflexivity | split; [reflexivity | split; [| reflexivity]]]].
  - unfold requestURL in Hurl. cbn [RequestOptions.query with_query] in Hurl.
    injection Hurl as <-.
    unfold buildPath. destruct id; cbn; by rewrite !append_assoc.
  - rewrite requestInit_headers. apply lookup_insert_eq.
Qed.

Lemma workflow_lookup_end_to_end_witness :
  "https://api.relay.com/api/tenant/tenant-123/workflows/wf-7"
  = removeTrailingSlash
      (default "https://api.relay.com" (RelayClientConfig.baseURL relay_config))
    +:+ "/api/tenant/" +:+ RelayClientConfig.tenantId relay_config
    +:+ "/workflows/" +:+ "wf-7".
Proof.
  refine (proj1 (workflow_lookup_end_to_end relay_config _ _ (always TimerFired)
                   "wf-7" _ _ _ eq_refl _)).
  apply list_elem_of_singleton. reflexivity.
Defined.

(** ** The calls of a failing exchange *)

(** X19. When the hooks do not fail, the exchange settles with a
    response that is not 2xx and [createErrorFromResponse] returns an
    error for it, the configured hooks are called in the order request
    hook, response hook, error hook, the response hook with the response
    itself and the error hook with that error, which is also what the
    caller receives. *)
Theorem failing_response_calls (this : HTTPClient) (net : Network)
    (path : string) (options : RequestOptions.t) (response : Response.t)
    (url : string) (e : RelayError) :
  requestURL this path options = Normal url ->
  createErrorFromResponse (Response.status response) (parseBody response)
  = Normal e ->
  let init := requestInit this options in
  let t := default (timeout this) (RequestOptions.timeout options) in
  completes (onRequest this) (url, init) ->
  net url init t = Responded response ->
  completes (onResponse this) response ->
  Response.ok response = false ->
  completes (onError this) e ->
  request this net path options
  = ((match onRequest this with
      | Some _ => [CallOnRequest url init] | None => [] end)
     ++ [CallFetch url init t]
     ++ (match onResponse this with
         | Some _ => [CallOnResponse response] | None => [] end)
     ++ (match onError this with
         | Some _ => [CallOnError e] | None => [] end),
     Throw (ThrownRelay e))%list.
Proof.
  intros Hurl He init t Hreq Hnet Hresp Hok Herr.
  rewrite (request_with_url _ _ _ _ _ Hurl). fold init t.
  rewrite (runHook_completes _ _ _ Hreq). cbn [bind].
  unfold attempt. rewrite Hnet. cbn [bind call].
  rewrite (runHook_completes _ _ _ Hresp).
  rewrite (handleResponse_failure _ _ Hok He).
  cbn [lift bind try_catch].
  unfold recover. cbn [handleError lift bind].
  rewrite (runHook_completes _ _ _ Herr). cbn.
  by rewrite !app_nil_r.
Qed.

Lemma failing_response_calls_witness :
  map tag
    (request
       (hooked_client (Some (fun _ => Normal tt)) (Some (fun _ => Normal tt))
          (Some (fun _ => Normal tt)))
       (always (Responded response_404)) "/workflows/7" RequestOptions.empty).1
  = [RequestHook; Fetch; ResponseHook; ErrorHook].
Proof.
  destruct (createErrorFromResponse 404 (parseBody response_404))
    as [e | failure] eqn:He; [| discriminate He].
  exact (f_equal (fun r => map tag r.1)
           (failing_response_calls
              (hooked_client (Some (fun _ => Normal tt)) (Some (fun _ => Normal tt))
                 (Some (fun _ => Normal tt)))
              (always (Responded response_404)) "/workflows/7"
              RequestOptions.empty response_404
              "https://api.relay.com/workflows/7" e eq_refl He
              eq_refl eq_refl eq_refl eq_refl eq_refl)).
Defined.

(** ** API keys *)

(** X20. The API key calls are not scoped to a tenant: each goes to a
    fixed URL under [<base>/api-keys] with the listed method, whatever
    the tenant of the service; [revoke] sends no body. *)
Theorem api_key_calls (this : BaseService) (net : Network) (id : string)
    (request : JValue) (url : string) (init : RequestInit.t) (t : Z) :
  let base := baseURL (client this) in
  Forall (fun call : Eff JValue * (string * string) =>
            CallFetch url init t ∈ call.1.1 ->
            RequestInit.method init = call.2.1 /\ url = base +:+ call.2.2)
    [(APIKeyService.create this net request, ("POST", "/api-keys"));
     (APIKeyService.list this net, ("GET", "/api-keys"));
     (APIKeyService.get this net id, ("GET", "/api-keys/" +:+ id));
     (APIKeyService.update this net id request, ("PUT", "/api-keys/" +:+ id));
     (APIKeyService.revoke this net id, ("POST", "/api-keys/" +:+ id +:+ "/revoke"));
     (APIKeyService.delete this net id, ("DELETE", "/api-keys/" +:+ id))] /\
  (CallFetch url init t ∈ (APIKeyService.revoke this net id).1 ->
   RequestInit.body init = None).
Proof.
  intros base. split.
  - repeat apply Forall_cons_2; try apply Forall_nil_2;
      cbn [fst snd]; intros H; split.
    all: try (apply absolute_url in H; [exact H | reflexivity]).
    all: apply fetch_arguments in H as (_ & -> & _);
      unfold requestInit; cbn; by destruct (truthy request).
  - by intros (_ & -> & _)%fetch_arguments.
Qed.

Lemma api_key_calls_witness :
  RequestInit.body
    (requestInit plain_client
       (with_body JUndefined (with_method "POST" RequestOptions.empty)))
  = None.
Proof.
  assert (H : CallFetch "https://api.relay.com/api-keys/key-9/revoke"
                (requestInit plain_client
                   (with_body JUndefined (with_method "POST" RequestOptions.empty)))
                30000
              ∈ (APIKeyService.revoke sample_service (always TimerFired) "key-9").1).
  { apply list_elem_of_singleton. reflexivity. }
  exact (proj2 (api_key_calls sample_service (always TimerFired) "key-9"
                  JUndefined _ _ _) H).
Defined.

(** ** Instances *)

Lemma appendQueryParams_unchanged_witness :
  appendQueryParams "/api/workflows?sort=name"
    [("page", JUndefined); ("tags", JArr []); ("q", JNull)]
  = Normal "/api/workflows?sort=name".
Proof.
  apply (proj2 (appendQueryParams_unchanged "/api/workflows?sort=name"
                  [("page", JUndefined); ("tags", JArr []); ("q", JNull)])).
  repeat apply Forall_cons_2; try apply Forall_nil_2; unfold silent; cbn; auto.
Defined.

Lemma query_string_separators_witness :
  count_byte "=" "tags=a&tags=b&page=2" = 3 /\
  count_byte "&" "tags=a&tags=b&page=2" = 2.
Proof.
  pose proof (query_string_separators
                [("tags", JArr [JStr "a"; JStr "b"]); ("cursor", JNull);
                 ("page", JNum 2)]
                "tags=a&tags=b&page=2" eq_refl) as (Heq & Hamp & _).
  split; [exact Heq | exact Hamp].
Defined.
